(** * edn_format: the EDN encoder of [edn_dump.py]

    A shallow embedding of [src/edn_format/edn_dump.py] (the string
    escaping function [unicode_escape], the class [Dumper] and the
    module-level [dump]) together with the properties its specification
    states about it.

    Python text is a sequence of code points; an exception is the left
    summand of a sum type.  What the module imports from the interpreter
    and from libraries that are not part of it (codecs, [sorted] on
    arbitrary objects, the text of a float, [pyrfc3339], ...) is gathered
    in the class [Runtime]; every theorem holds for every runtime. *)

From Stdlib Require Import NArith ZArith String Ascii DecimalString Floats.SpecFloat Lia.
From stdpp Require Import base list sorting gmap.

Set Warnings "-register-all".
Local Open Scope N_scope.

(** * Part I: the program *)

(** ** Text and bytes *)

(** A code point of a Python unicode string. *)
Abbreviation char := N.

(** A Python unicode string ([str] on Python 3, [unicode] on Python 2). *)
Abbreviation text := (list N).

(** A Python byte string: octets, each below 256. *)
Abbreviation bytes := (list N).

(** A text literal of the source, written as a Rocq string. *)
Definition u (s : string) : text :=
  map N_of_ascii (list_ascii_of_string s).

Definition BACKSLASH : char := 0x5c.

Definition DQUOTE : char := 0x22.

(** [sep.join(parts)]. *)
Fixpoint join (sep : text) (parts : list text) : text :=
  match parts with
  | [] => []
  | [p] => p
  | p :: rest => p ++ sep ++ join sep rest
  end.

(** ** Exceptions *)

(** An exception raised inside the interpreter or a library the module
    calls; the module itself never raises one of these. *)
Inductive lib_exn :=
| UnicodeDecodeError
| UnicodeEncodeError
| LookupError
| TypeError
| ValueError
| OtherError (name : text).

(** What a call into the module can raise. *)
Inductive exn :=
| NotImplementedError (msg : text)   (* line 122 *)
| KeyError (key : text)              (* a failed [ESCAPE_DCT[...]] *)
| RecursionError                     (* the call stack is exhausted *)
| LibraryError (e : lib_exn).

Definition result (A : Type) : Type := exn + A.

Definition Ok {A} (a : A) : result A := inr a.

Definition Raise {A} (e : exn) : result A := inl e.

Definition bind {A B} (r : result A) (k : A → result B) : result B :=
  match r with
  | inl e => inl e
  | inr a => k a
  end.

Notation "'let!' x ':=' r 'in' k" := (bind r (fun x => k))
  (at level 10, x name, r at level 100, k at level 200).

(** A library call, its exception carried over. *)
Definition lib {A} (r : lib_exn + A) : result A :=
  match r with
  | inl e => Raise (LibraryError e)
  | inr a => Ok a
  end.

(** [[f(x) for x in xs]]: left to right, the first exception ends it. *)
Fixpoint for_each {A B} (f : A → result B) (xs : list A) : result (list B) :=
  match xs with
  | [] => Ok []
  | x :: rest => let! y := f x in let! ys := for_each f rest in Ok (y :: ys)
  end.

(** ** String escaping (lines 34-56) *)

(** The character class of [ESCAPE]: the range 0x00-0x1f, the backslash,
    the double quote, and the escapes b, f, n, r and t, which inside a
    character class are the backspace, form feed, newline, carriage return
    and tab. *)
Definition ESCAPE (c : char) : bool :=
  (c <=? 0x1f) || (c =? BACKSLASH) || (c =? DQUOTE)
  || (c =? 0x08) || (c =? 0x0c) || (c =? 0x0a) || (c =? 0x0d) || (c =? 0x09).

(** One lowercase hexadecimal digit. *)
Definition hex_digit (d : N) : char :=
  if d <? 10 then 0x30 + d else 0x61 + (d - 10).

(** The digits of [n] in base 16, most significant first; [acc] is what
    follows them. *)
Fixpoint hex_digits (fuel : nat) (n : N) (acc : text) : text :=
  match fuel with
  | O => acc
  | S fuel' =>
      let acc' := hex_digit (n mod 16) :: acc in
      if n / 16 =? 0 then acc' else hex_digits fuel' (n / 16) acc'
  end.

(** [format(n, 'x')]. *)
Definition format_x (n : N) : text :=
  hex_digits (S (N.to_nat (N.size n))) n [].

(** [format(n, '04x')]: zero-padded on the left to four characters. *)
Definition format_04x (n : N) : text :=
  let digits := format_x n in
  replicate (4 - length digits)%nat 0x30 ++ digits.

(** [unichr(i)]: the one-character string. *)
Definition unichr (i : N) : text := [i].

(** [d.setdefault(k, v)], for the dictionary it leaves behind. *)
Definition setdefault (d : gmap (list N) (list N)) (k v : text) : gmap (list N) (list N) :=
  match d !! k with
  | Some _ => d
  | None => <[k := v]> d
  end.

(** [range(n)]. *)
Definition range (n : nat) : list N := map N.of_nat (seq 0 n).

(** The dictionary literal of lines 37-45. *)
Definition ESCAPE_DCT_literal : gmap (list N) (list N) :=
  <[ [0x09] := u "\t" ]>
  (<[ [0x0d] := u "\r" ]>
  (<[ [0x0a] := u "\n" ]>
  (<[ [0x0c] := u "\f" ]>
  (<[ [0x08] := u "\b" ]>
  (<[ [DQUOTE] := [BACKSLASH; DQUOTE] ]>
  (<[ [BACKSLASH] := [BACKSLASH; BACKSLASH] ]> ∅)))))).

(** The loop of lines 47-48 run on the literal. *)
Definition ESCAPE_DCT : gmap (list N) (list N) :=
  foldl (fun d i => setdefault d (unichr i) (u "\u" ++ format_04x i))
        ESCAPE_DCT_literal (range 0x20).

(** [ESCAPE.sub(replace, string)] for a pattern that is one character
    class: every character of the class is replaced by what [replace]
    returns for it, the others are kept. *)
Fixpoint re_sub (cls : char → bool) (replace : text → result text)
    (string : text) : result text :=
  match string with
  | [] => Ok []
  | c :: rest =>
      if cls c then
        let! r := replace [c] in let! out := re_sub cls replace rest in Ok (r ++ out)
      else
        let! out := re_sub cls replace rest in Ok (c :: out)
  end.

Definition unicode_escape (string : text) : result text :=
  let replace (group0 : text) : result text :=
    match ESCAPE_DCT !! group0 with
    | Some r => Ok r
    | None => Raise (KeyError group0)
    end in
  let! out := re_sub ESCAPE replace string in
  Ok ([DQUOTE] ++ out ++ [DQUOTE]).

(** ** The escaping contract, as the specification words it *)

(** The digit of value [d] in lowercase hexadecimal. *)
Definition spec_hex (d : N) : char :=
  nth (N.to_nat d) (u "0123456789abcdef") 0.

(** What the contract substitutes for one character. *)
Definition spec_escape_char (c : char) : text :=
  if c =? 0x5c then u "\\"
  else if c =? 0x22 then [0x5c; 0x22]
  else if c =? 0x08 then u "\b"
  else if c =? 0x0c then u "\f"
  else if c =? 0x0a then u "\n"
  else if c =? 0x0d then u "\r"
  else if c =? 0x09 then u "\t"
  else if c <=? 0x1f then
    u "\u" ++ [spec_hex (c / 4096 mod 16); spec_hex (c / 256 mod 16);
               spec_hex (c / 16 mod 16); spec_hex (c mod 16)]
  else [c].

(** The double-quoted literal of the contract. *)
Definition spec_string_literal (s : text) : text :=
  [0x22] ++ flat_map spec_escape_char s ++ [0x22].

(** ** Values *)

(** [decimal.Decimal]: sign, coefficient and exponent. *)
Record Decimal_t := { dec_negative : bool; dec_coefficient : N; dec_exponent : Z }.

(** [datetime.date]. *)
Record date_t := { year : N; month : N; day : N }.

(** [datetime.datetime]; [utcoffset] is in minutes, [None] for a naive
    value. *)
Record datetime_t := {
  dt_date : date_t;
  hour : N; minute : N; second : N; microsecond : N;
  utcoffset : option Z
}.

(** A Python object the encoder can be handed, by its class.  A set or a
    dictionary carries its elements in the order its iteration yields
    them.  [ImmutableList], [ImmutableDict] and [TaggedElement] are
    classes of modules that are not among the sources: the first two are
    taken as the specification takes them, containers the encoder
    iterates, and the text of the third is left to the runtime. *)
Inductive pyobj :=
| PyNone
| PyBool (b : bool)
| PyInt (z : Z)
| PyFloat (f : spec_float)
| PyDecimal (d : Decimal_t)
| PyKeyword (name : pyobj)
| PySymbol (name : pyobj)
| PyBytes (b : bytes)
| PyStr (s : text)
| PyTuple (elts : list pyobj)
| PyList (elts : list pyobj)
| PyImmutableList (elts : list pyobj)
| PySet (elts : list pyobj)
| PyFrozenset (elts : list pyobj)
| PyDict (pairs : list (pyobj * pyobj))
| PyImmutableDict (pairs : list (pyobj * pyobj))
| PyFraction (num den : Z)
| PyDatetime (d : datetime_t)
| PyDate (d : date_t)
| PyUUID (int : N)
| PyTaggedElement (name : text) (value : pyobj)
| PyObject (cls : text) (repr : text).

(** The classes the module names, and [c_other] for every other one.
    [c_text] is [str] on Python 3 and [unicode] on Python 2; [c_bytes] is
    [bytes], which on Python 2 is [str]. *)
Inductive class :=
| c_NoneType | c_bool | c_int | c_long | c_float | c_Decimal
| c_Keyword | c_Symbol | c_bytes | c_text | c_basestring
| c_tuple | c_list | c_ImmutableList | c_set | c_frozenset
| c_dict | c_ImmutableDict | c_Fraction | c_datetime | c_date
| c_UUID | c_TaggedElement
| c_other (name : text).

#[global] Instance class_eq_dec : EqDecision class.
Proof. solve_decision. Defined.

(** [type(obj)]. *)
Definition type_of (obj : pyobj) : class :=
  match obj with
  | PyNone => c_NoneType
  | PyBool _ => c_bool
  | PyInt _ => c_int
  | PyFloat _ => c_float
  | PyDecimal _ => c_Decimal
  | PyKeyword _ => c_Keyword
  | PySymbol _ => c_Symbol
  | PyBytes _ => c_bytes
  | PyStr _ => c_text
  | PyTuple _ => c_tuple
  | PyList _ => c_list
  | PyImmutableList _ => c_ImmutableList
  | PySet _ => c_set
  | PyFrozenset _ => c_frozenset
  | PyDict _ => c_dict
  | PyImmutableDict _ => c_ImmutableDict
  | PyFraction _ _ => c_Fraction
  | PyDatetime _ => c_datetime
  | PyDate _ => c_date
  | PyUUID _ => c_UUID
  | PyTaggedElement _ _ => c_TaggedElement
  | PyObject cls _ => c_other cls
  end.

(** [issubclass(c, base)]: [bool] derives from [int], [datetime] from
    [date], and on Python 2 both string classes from [basestring]. *)
Definition issubclass (c base : class) : bool :=
  bool_decide (c = base)
  || match c, base with
     | c_bool, c_int => true
     | c_datetime, c_date => true
     | c_bytes, c_basestring => true
     | c_text, c_basestring => true
     | _, _ => false
     end.

(** [isinstance(obj, (c1, c2, ...))]. *)
Definition isinstance (obj : pyobj) (classes : list class) : bool :=
  existsb (issubclass (type_of obj)) classes.

(** [obj is None]. *)
Definition is_None (obj : pyobj) : bool :=
  match obj with PyNone => true | _ => false end.

(** The truth value of an object, as a conditional tests it. *)
Definition py_truth (obj : pyobj) : bool :=
  match obj with
  | PyNone => false
  | PyBool b => b
  | PyInt z => negb (z =? 0)%Z
  | PyFloat (S754_zero _) => false
  | PyDecimal d => negb (dec_coefficient d =? 0)
  | PyBytes [] | PyStr [] => false
  | PyTuple [] | PyList [] | PyImmutableList [] | PySet [] | PyFrozenset [] => false
  | PyDict [] | PyImmutableDict [] => false
  | PyFraction n _ => negb (n =? 0)%Z
  | _ => true
  end.

(** [str(z)] for an integer: decimal digits, a minus sign when negative. *)
Definition int_str (z : Z) : text :=
  u (NilZero.string_of_int (Z.to_int z)).

(** ** The interpreter and the libraries *)

(** What the module takes from outside itself.  [PY3] is the test of line
    21; the other fields are calls whose result this development leaves
    open. *)
Class Runtime := {
  PY3 : bool;
  (** [b.decode(encoding)] *)
  codec_decode : text → bytes → lib_exn + text;
  (** [s.encode(encoding)] *)
  codec_encode : text → text → lib_exn + bytes;
  (** [str(obj)] where [py_str] below does not give it: floats, decimals,
      byte strings, containers, dates, UUIDs, tagged elements, ... *)
  rt_str : pyobj → lib_exn + text;
  (** [str(type(obj))] *)
  class_str : class → text;
  (** [repr(obj)] of a built-in object *)
  rt_repr : pyobj → lib_exn + text;
  (** [sorted(objs)], by the objects' own ordering *)
  rt_sorted : list pyobj → lib_exn + list pyobj;
  rt_sorted_perm : ∀ l l', rt_sorted l = inr l' → l' ≡ₚ l;
  (** [pyrfc3339.generate(d, microseconds=...)] *)
  pyrfc3339_generate : datetime_t → bool → lib_exn + text;
  (** [d.isoformat()] of a date *)
  date_isoformat : date_t → text
}.

(** ** Sorting by a text key *)

(** [a < b] on text: lexicographic on code points. *)
Fixpoint text_ltb (a b : text) : bool :=
  match a, b with
  | _, [] => false
  | [], _ :: _ => true
  | x :: a', y :: b' => (x <? y) || ((x =? y) && text_ltb a' b')
  end.

(** Insertion of [x], with key [k], in front of a list sorted by key:
    [x] goes past the strictly smaller keys only, so it stays in front of
    the elements of equal key, which came after it. *)
Fixpoint insert_by {A} (k : text) (x : A) (l : list (text * A)) : list (text * A) :=
  match l with
  | [] => [(k, x)]
  | (k', y) :: rest =>
      if text_ltb k' k then (k', y) :: insert_by k x rest
      else (k, x) :: (k', y) :: rest
  end.

(** The stable sort of a list of keyed elements.  [sorted] is stable, and
    a list has one stable sort, so this is its result whatever algorithm
    computes it. *)
Definition stable_sort {A} (l : list (text * A)) : list (text * A) :=
  foldr (fun kx acc => insert_by kx.1 kx.2 acc) [] l.

(** [sorted(l, key=key)] for a key function that returns text: the keys
    are computed first, once per element and in order. *)
Definition sorted_by {A} (key : A → result text) (l : list A) : result (list A) :=
  let! keys := for_each key l in
  Ok (map snd (stable_sort (zip keys l))).

(** The text [key] gives, where it gives one. *)
Definition key_text {A} (key : A → result text) (x : A) : text :=
  match key x with
  | inr k => k
  | inl _ => []
  end.

(** The elements with their keys, as [sorted_by] sorts them. *)
Definition decorate {A} (key : A → result text) (l : list A) : list (text * A) :=
  map (fun x => (key_text key x, x)) l.

(** [a] may stand in front of [b] in a list sorted by key: the key of [b]
    is not strictly below the key of [a]. *)
Definition key_le {A} (a b : text * A) : Prop := text_ltb b.1 a.1 = false.

(** The order [sorted_by] leaves: no element has a key strictly below the
    key of an element in front of it. *)
Definition text_le_by {A} (key : A → result text) (a b : A) : Prop :=
  text_ltb (key_text key b) (key_text key a) = false.

(** [itertools.chain.from_iterable(pairs)]. *)
Definition chain_from_iterable (pairs : list (pyobj * pyobj)) : list pyobj :=
  flat_map (fun kv => [kv.1; kv.2]) pairs.

(** ** The encoder (lines 58-146) *)

(** The attributes of a [Dumper] that [__init__] stores in lines 67-72.
    Line 73, the last of [__init__], is [self._indent =] with nothing to
    its right: an incomplete statement, for which the interpreter refuses
    the module.  What follows is the module with that line made good; no
    other line reads [_indent], so no result below depends on how. *)
Record Dumper := {
  string_encoding : text;
  output_encoding : option text;
  keyword_keys : bool;
  sort_keys : bool;
  sort_sets : bool;
  pretty : bool
}.

(** What [dump] returns: text, or bytes when it encoded the text. *)
Inductive output :=
| Text (s : text)
| Bytes (b : bytes).

Definition DEFAULT_INPUT_ENCODING : text := u "utf-8".

Definition DEFAULT_OUTPUT_ENCODING : text := u "utf-8".

Definition with_pretty (p : bool) (self : Dumper) : Dumper := {|
  string_encoding := string_encoding self;
  output_encoding := output_encoding self;
  keyword_keys := keyword_keys self;
  sort_keys := sort_keys self;
  sort_sets := sort_sets self;
  pretty := p |}.

Section Encoder.
Context {rt : Runtime}.

(** The aliases of lines 21-28. *)
Definition long : class := if PY3 then c_int else c_long.

Definition basestring : class := if PY3 then c_text else c_basestring.

(** Modelled from the spec: [edn_lex.py] is not among the sources.
    [Keyword(name)] is the Keyword of that name. *)
Definition Keyword (name : pyobj) : pyobj := PyKeyword name.

(** Modelled from the spec: [edn_lex.py] is not among the sources.  The
    literal of a Keyword is a colon followed by its name. *)
Definition Keyword_literal (name : text) : text := u ":" ++ name.

(** Modelled from the spec: [edn_lex.py] is not among the sources.  The
    literal of a Symbol is its name. *)
Definition Symbol_literal (name : text) : text := name.

(** [str(obj)], and [unicode(obj)] and [format(obj)] with an empty format,
    which for the objects below give the same text. *)
Fixpoint py_str (obj : pyobj) : result text :=
  match obj with
  | PyNone => Ok (u "None")
  | PyBool b => Ok (if b then u "True" else u "False")
  | PyInt z => Ok (int_str z)
  | PyStr s => Ok s
  | PyKeyword name => let! n := py_str name in Ok (Keyword_literal n)
  | PySymbol name => let! n := py_str name in Ok (Symbol_literal n)
  | _ => lib (rt_str obj)
  end.

Definition unicode := py_str.

Definition py_format := py_str.

(** [repr(obj)]. *)
Definition py_repr (obj : pyobj) : result text :=
  match obj with
  | PyObject _ r => Ok r
  | _ => lib (rt_repr obj)
  end.

(** [obj.decode(encoding)]. *)
Definition decode (obj : pyobj) (encoding : text) : result text :=
  match obj with
  | PyBytes b => lib (codec_decode encoding b)
  | _ => Raise (LibraryError (OtherError (u "AttributeError")))
  end.

(** A text argument, as [ESCAPE.sub] requires. *)
Definition as_text (obj : pyobj) : result text :=
  match obj with
  | PyStr s => Ok s
  | _ => Raise (LibraryError TypeError)
  end.

(** [iter(obj)] of a sequence or set, run to its end. *)
Definition py_iter (obj : pyobj) : result (list pyobj) :=
  match obj with
  | PyTuple l | PyList l | PyImmutableList l | PySet l | PyFrozenset l => Ok l
  | _ => Raise (LibraryError TypeError)
  end.

(** [sorted(obj)]. *)
Definition sorted (obj : pyobj) : result (list pyobj) :=
  let! l := py_iter obj in lib (rt_sorted l).

(** [obj.items()]. *)
Definition items (obj : pyobj) : result (list (pyobj * pyobj)) :=
  match obj with
  | PyDict l | PyImmutableDict l => Ok l
  | _ => Raise (LibraryError (OtherError (u "AttributeError")))
  end.

(** [obj.numerator] and [obj.denominator] of a Fraction. *)
Definition numerator (obj : pyobj) : result pyobj :=
  match obj with
  | PyFraction n _ => Ok (PyInt n)
  | _ => Raise (LibraryError (OtherError (u "AttributeError")))
  end.

Definition denominator (obj : pyobj) : result pyobj :=
  match obj with
  | PyFraction _ d => Ok (PyInt d)
  | _ => Raise (LibraryError (OtherError (u "AttributeError")))
  end.

(** [pyrfc3339.generate(obj, microseconds=microseconds)]. *)
Definition generate (obj : pyobj) (microseconds : bool) : result text :=
  match obj with
  | PyDatetime d => lib (pyrfc3339_generate d microseconds)
  | _ => Raise (LibraryError TypeError)
  end.

(** [obj.isoformat()] of a date. *)
Definition isoformat (obj : pyobj) : result text :=
  match obj with
  | PyDate d => Ok (date_isoformat d)
  | _ => Raise (LibraryError (OtherError (u "AttributeError")))
  end.

(** The message of lines 123-124. *)
Definition unsupported_msg (type_text repr_text : text) : text :=
  u "encountered object of type '" ++ type_text
  ++ u "' for which no known encoding is available: " ++ repr_text.

(** The key coercion of line 109. *)
Definition coerce_key (kv : pyobj * pyobj) : pyobj * pyobj :=
  (if isinstance kv.1 [c_bytes; basestring] then Keyword kv.1 else kv.1, kv.2).

(** The body of [Dumper._dump]; [_dump] stands for [self._dump] in the
    recursive calls. *)
Definition _dump_body (self : Dumper) (_dump : pyobj → result text)
    (obj : pyobj) : result text :=
  let _dump_seq (objs : list pyobj) : result text :=
    let! parts := for_each _dump objs in Ok (join (u " ") parts) in
  if is_None obj then
    Ok (u "nil")
  else if isinstance obj [c_bool] then
    Ok (if py_truth obj then u "true" else u "false")
  else if isinstance obj [c_int; long; c_float] then
    unicode obj
  else if isinstance obj [c_Decimal] then
    let! s := py_format obj in Ok (s ++ u "M")
  else if isinstance obj [c_Keyword; c_Symbol] then
    unicode obj
  else if isinstance obj [c_bytes] then
    let! s := decode obj (string_encoding self) in unicode_escape s
  else if isinstance obj [basestring] then
    let! s := as_text obj in unicode_escape s
  else if isinstance obj [c_tuple] then
    let! objs := py_iter obj in
    let! s := _dump_seq objs in Ok (u "(" ++ s ++ u ")")
  else if isinstance obj [c_list; c_ImmutableList] then
    let! objs := py_iter obj in
    let! s := _dump_seq objs in Ok (u "[" ++ s ++ u "]")
  else if isinstance obj [c_set] || isinstance obj [c_frozenset] then
    let! objs := (if sort_sets self then sorted obj else py_iter obj) in
    let! s := _dump_seq objs in Ok (u "#{" ++ s ++ u "}")
  else if isinstance obj [c_dict] || isinstance obj [c_ImmutableDict] then
    let! pairs := items obj in
    let! pairs := (if sort_keys self
                   then sorted_by (fun p => py_str p.1) pairs
                   else Ok pairs) in
    let pairs := if keyword_keys self then map coerce_key pairs else pairs in
    let! s := _dump_seq (chain_from_iterable pairs) in Ok (u "{" ++ s ++ u "}")
  else if isinstance obj [c_Fraction] then
    let! n := numerator obj in
    let! d := denominator obj in
    let! ns := py_format n in
    let! ds := py_format d in Ok (ns ++ u "/" ++ ds)
  else if isinstance obj [c_datetime] then
    let! s := generate obj true in Ok (u "#inst " ++ [DQUOTE] ++ s ++ [DQUOTE])
  else if isinstance obj [c_date] then
    let! s := isoformat obj in Ok (u "#inst " ++ [DQUOTE] ++ s ++ [DQUOTE])
  else if isinstance obj [c_UUID] then
    let! s := py_format obj in Ok (u "#uuid " ++ [DQUOTE] ++ s ++ [DQUOTE])
  else if isinstance obj [c_TaggedElement] then
    unicode obj
  else
    let! r := py_repr obj in
    Raise (NotImplementedError (unsupported_msg (class_str (type_of obj)) r)).

(** [Dumper._dump], with the call depth that is left: a call at depth 0
    is the one the interpreter refuses. *)
Fixpoint _dump (self : Dumper) (depth : nat) (obj : pyobj) : result text :=
  match depth with
  | O => Raise RecursionError
  | S depth' => _dump_body self (_dump self depth') obj
  end.

(** [Dumper._dump_seq]. *)
Definition _dump_seq (self : Dumper) (depth : nat) (objs : list pyobj) : result text :=
  let! parts := for_each (_dump self depth) objs in Ok (join (u " ") parts).

(** How deep the containers of a value are nested: the depth of the calls
    [_dump] makes below the first. *)
Fixpoint nesting (obj : pyobj) : nat :=
  match obj with
  | PyTuple l | PyList l | PyImmutableList l | PySet l | PyFrozenset l =>
      S (max_list (map nesting l))
  | PyDict l | PyImmutableDict l =>
      S (max_list (map (fun kv => let '(k, v) := kv in Nat.max (nesting k) (nesting v)) l))
  | _ => O
  end.

(** [Dumper.dump].  The call stack is as deep as the value needs: values
    nested deeper than the interpreter allows are left out of account. *)
Definition Dumper_dump (self : Dumper) (obj : pyobj) : result output :=
  let! s := _dump self (S (nesting obj)) obj in
  match output_encoding self with
  | Some (c :: enc) => let! b := lib (codec_encode (c :: enc) s) in Ok (Bytes b)
  | Some [] | None => Ok (Text s)
  end.

(** [Dumper.dump] when the interpreter allows [limit] calls of [_dump]
    inside one another: a value nested deeper exhausts the call stack. *)
Definition Dumper_dump_within (limit : nat) (self : Dumper) (obj : pyobj)
    : result output :=
  let! s := _dump self limit obj in
  match output_encoding self with
  | Some (c :: enc) => let! b := lib (codec_encode (c :: enc) s) in Ok (Bytes b)
  | Some [] | None => Ok (Text s)
  end.

(** The module-level [dump].  Its keyword arguments are explicit here;
    their defaults are [DEFAULT_INPUT_ENCODING], [Some
    DEFAULT_OUTPUT_ENCODING] and [false] four times. *)
Definition dump (obj : pyobj) (string_encoding : text)
    (output_encoding : option text)
    (keyword_keys sort_keys sort_sets pretty : bool) : result output :=
  let dumper := {|
    output_encoding := if PY3 then None else output_encoding;
    string_encoding := string_encoding;
    keyword_keys := keyword_keys;
    sort_keys := sort_keys;
    sort_sets := sort_sets;
    pretty := pretty |} in
  Dumper_dump dumper obj.

(** *** The dispatch, class by class *)

(** [_dump_seq] over a given recursive call. *)
Definition dump_seq_with (_dump : pyobj → result text) (objs : list pyobj) : result text :=
  let! parts := for_each _dump objs in Ok (join (u " ") parts).

(** The pairs of a map as they are rendered: sorted, then coerced. *)
Definition rendered_pairs (self : Dumper) (pairs : list (pyobj * pyobj))
    : result (list (pyobj * pyobj)) :=
  let! pairs := (if sort_keys self
                 then sorted_by (fun p => py_str p.1) pairs
                 else Ok pairs) in
  Ok (if keyword_keys self then map coerce_key pairs else pairs).

Definition dump_map_with (self : Dumper) (_dump : pyobj → result text)
    (pairs : list (pyobj * pyobj)) : result text :=
  let! pairs := rendered_pairs self pairs in
  let! s := dump_seq_with _dump (chain_from_iterable pairs) in
  Ok (u "{" ++ s ++ u "}").

Definition dump_set_with (self : Dumper) (_dump : pyobj → result text)
    (elts : list pyobj) : result text :=
  let! objs := (if sort_sets self then lib (rt_sorted elts) else Ok elts) in
  let! s := dump_seq_with _dump objs in
  Ok (u "#{" ++ s ++ u "}").

(** What the sequence of tests of [_dump_body] comes to for each class of
    object. *)
Definition dump_cases (self : Dumper) (_dump : pyobj → result text)
    (obj : pyobj) : result text :=
  match obj with
  | PyNone => Ok (u "nil")
  | PyBool b => Ok (if b then u "true" else u "false")
  | PyInt _ | PyFloat _ | PyKeyword _ | PySymbol _ | PyTaggedElement _ _ =>
      py_str obj
  | PyDecimal _ => let! s := py_str obj in Ok (s ++ u "M")
  | PyBytes b =>
      let! s := lib (codec_decode (string_encoding self) b) in unicode_escape s
  | PyStr s => unicode_escape s
  | PyTuple l => let! s := dump_seq_with _dump l in Ok (u "(" ++ s ++ u ")")
  | PyList l | PyImmutableList l =>
      let! s := dump_seq_with _dump l in Ok (u "[" ++ s ++ u "]")
  | PySet l | PyFrozenset l => dump_set_with self _dump l
  | PyDict l | PyImmutableDict l => dump_map_with self _dump l
  | PyFraction n d => Ok (int_str n ++ u "/" ++ int_str d)
  | PyDatetime d =>
      let! s := lib (pyrfc3339_generate d true) in
      Ok (u "#inst " ++ [DQUOTE] ++ s ++ [DQUOTE])
  | PyDate d => Ok (u "#inst " ++ [DQUOTE] ++ date_isoformat d ++ [DQUOTE])
  | PyUUID _ =>
      let! s := py_str obj in Ok (u "#uuid " ++ [DQUOTE] ++ s ++ [DQUOTE])
  | PyObject cls r =>
      Raise (NotImplementedError (unsupported_msg (class_str (c_other cls)) r))
  end.

(** The pairs of a map in the order the specification words: the keys
    coerced first, the sort on the text of the coerced keys afterwards. *)
Definition spec_rendered_pairs (pairs : list (pyobj * pyobj))
    : result (list (pyobj * pyobj)) :=
  sorted_by (fun p => py_str p.1) (map coerce_key pairs).

(** Every object of [objs] is nested less than [n] deep. *)
Definition within (n : nat) (objs : list pyobj) : Prop :=
  Forall (fun x => (nesting x < n)%nat) objs.

(** The exception raised for an object of class [cls] whose [repr] is
    [r]. *)
Definition unsupported (cls r : text) : exn :=
  NotImplementedError (unsupported_msg (class_str (c_other cls)) r).

End Encoder.

(** The objects a container holds. *)
Definition children (obj : pyobj) : list pyobj :=
  match obj with
  | PyTuple l | PyList l | PyImmutableList l | PySet l | PyFrozenset l => l
  | PyDict l | PyImmutableDict l => chain_from_iterable l
  | _ => []
  end.

(** [x] is [obj] or is held, at some depth, by [obj]. *)
Inductive occurs_in (x : pyobj) : pyobj → Prop :=
| occurs_here : occurs_in x x
| occurs_below (obj y : pyobj) :
    y ∈ children obj → occurs_in x y → occurs_in x obj.

(** ** A sample runtime

    A Python 3 interpreter as far as the examples at the end need it: the
    [ascii] and [utf-8] codecs on octets and code points below 128, the
    text of a byte string of plain printable characters, the text of a
    class, the ISO form of a date, and [pyrfc3339.generate] on naive
    datetimes, which it refuses, and on datetimes in UTC.  A call outside
    of these raises [NotModelled], which stands for no exception of
    Python. *)

Definition NotModelled {A} : lib_exn + A := inl (OtherError (u "NotModelled")).

Definition sample_codec (failure : lib_exn) (encoding : text) (s : list N)
    : lib_exn + list N :=
  if bool_decide (encoding = u "ascii") then
    if forallb (fun c => c <? 128) s then inr s else inl failure
  else if bool_decide (encoding = u "utf-8") then
    if forallb (fun c => c <? 128) s then inr s else NotModelled
  else NotModelled.

(** A character that [repr] of a byte string shows as it is. *)
Definition plain (c : N) : bool :=
  (0x20 <=? c) && (c <? 0x7f) && negb (c =? 0x27) && negb (c =? 0x5c).

Definition sample_str (obj : pyobj) : lib_exn + text :=
  match obj with
  | PyBytes b => if forallb plain b then inr (u "b'" ++ b ++ u "'") else NotModelled
  | _ => NotModelled
  end.

Definition sample_class_str (c : class) : text :=
  match c with
  | c_other name => u "<class '" ++ name ++ u "'>"
  | _ => u "<class 'builtin'>"
  end.

(** [n] in decimal, zero-padded on the left to [width] characters. *)
Definition zero_padded (width : nat) (n : N) : text :=
  let digits := int_str (Z.of_N n) in
  replicate (width - length digits)%nat 0x30 ++ digits.

Definition sample_isoformat (d : date_t) : text :=
  zero_padded 4 (year d) ++ u "-" ++ zero_padded 2 (month d)
  ++ u "-" ++ zero_padded 2 (day d).

(** [pyrfc3339.generate(dt, microseconds=...)]: a datetime without a
    time zone raises [ValueError]; one in UTC gives its date, [T], its
    time, the microseconds when asked for, and [Z]. *)
Definition sample_generate (dt : datetime_t) (microseconds : bool) : lib_exn + text :=
  match utcoffset dt with
  | None => inl ValueError
  | Some 0%Z =>
      inr (sample_isoformat (dt_date dt) ++ u "T"
           ++ zero_padded 2 (hour dt) ++ u ":" ++ zero_padded 2 (minute dt)
           ++ u ":" ++ zero_padded 2 (second dt)
           ++ (if microseconds then u "." ++ zero_padded 6 (microsecond dt) else [])
           ++ u "Z")
  | Some _ => NotModelled
  end.

Definition py3 : Runtime := {|
  PY3 := true;
  codec_decode := sample_codec UnicodeDecodeError;
  codec_encode := sample_codec UnicodeEncodeError;
  rt_str := sample_str;
  class_str := sample_class_str;
  rt_repr := fun _ => NotModelled;
  rt_sorted := fun _ => NotModelled;
  rt_sorted_perm := fun l l' H => ltac:(discriminate H);
  pyrfc3339_generate := sample_generate;
  date_isoformat := sample_isoformat
|}.

(** The dumper [dump] builds on Python 3 from its defaults and the given
    options. *)
Definition py3_dumper (encoding : text) (keyword_keys sort_keys : bool) : Dumper := {|
  string_encoding := encoding;
  output_encoding := None;
  keyword_keys := keyword_keys;
  sort_keys := sort_keys;
  sort_sets := false;
  pretty := false |}.

(** The values of the examples. *)

(** A map whose keys are the Symbol [B] and the text [a]. *)
Definition symbol_and_text_keys : list (pyobj * pyobj) :=
  [(PySymbol (PyStr (u "B")), PyInt 1); (PyStr (u "a"), PyInt 2)].

(** A map whose keys are the integer 1 and the text [1], and the same map
    built in the other order. *)
Definition one_and_text_one : list (pyobj * pyobj) :=
  [(PyInt 1, PyStr (u "x")); (PyStr (u "1"), PyStr (u "y"))].

Definition text_one_and_one : list (pyobj * pyobj) :=
  [(PyStr (u "1"), PyStr (u "y")); (PyInt 1, PyStr (u "x"))].

(** A map with the text keys [b] and [a], and the same map built in the
    other order. *)
Definition b_then_a : list (pyobj * pyobj) :=
  [(PyStr (u "b"), PyInt 1); (PyStr (u "a"), PyInt 2)].

Definition a_then_b : list (pyobj * pyobj) :=
  [(PyStr (u "a"), PyInt 2); (PyStr (u "b"), PyInt 1)].

(** The first of January 2020 at noon, without a time zone and in
    UTC. *)
Definition naive_noon : datetime_t := {|
  dt_date := {| year := 2020; month := 1; day := 1 |};
  hour := 12; minute := 0; second := 0; microsecond := 0;
  utcoffset := None |}.

Definition utc_noon : datetime_t := {|
  dt_date := {| year := 2020; month := 1; day := 1 |};
  hour := 12; minute := 0; second := 0; microsecond := 0;
  utcoffset := Some 0%Z |}.

(** A list that holds a complex number, which no test of the dispatch
    matches. *)
Definition list_with_complex : pyobj :=
  PyList [PyInt 1; PyObject (u "complex") (u "(1+2j)")].

(** ** Reading a literal back

    The reading of what [unicode_escape] writes between the quotes, by
    which the properties below state that nothing is lost.  It is not
    part of the module. *)

(** The value of a lowercase hexadecimal digit. *)
Definition hex_value (c : char) : N :=
  if c <? 0x3a then c - 0x30 else c - 0x61 + 10.

(** The character a named escape stands for. *)
Definition named_escape (x : char) : char :=
  if x =? 0x62 then 0x08
  else if x =? 0x66 then 0x0c
  else if x =? 0x6e then 0x0a
  else if x =? 0x72 then 0x0d
  else if x =? 0x74 then 0x09
  else x.

Fixpoint unescape (t : text) : text :=
  match t with
  | [] => []
  | c :: rest =>
      if c =? BACKSLASH then
        match rest with
        | [] => [c]
        | x :: rest1 =>
            if x =? 0x75 then
              match rest1 with
              | a :: b :: c' :: d :: rest2 =>
                  (4096 * hex_value a + 256 * hex_value b
                   + 16 * hex_value c' + hex_value d) :: unescape rest2
              | _ => c :: x :: rest1
              end
            else named_escape x :: unescape rest1
        end
      else c :: unescape rest
  end.

(** The reading of a literal from behind its opening quote up to the
    first double quote that no backslash precedes: what is read, and what
    is left behind the closing quote. *)
Fixpoint read_literal (t : text) : option (text * text) :=
  match t with
  | [] => None
  | c :: rest =>
      if c =? DQUOTE then Some ([], rest)
      else if c =? BACKSLASH then
        match rest with
        | [] => None
        | x :: rest1 =>
            match read_literal rest1 with
            | Some (body, tail) => Some (c :: x :: body, tail)
            | None => None
            end
        end
      else
        match read_literal rest with
        | Some (body, tail) => Some (c :: body, tail)
        | None => None
        end
  end.

(** ** Shapes of values *)

(** [obj] is a dictionary or holds one in a sequence or a set. *)
Fixpoint holds_map (obj : pyobj) : bool :=
  match obj with
  | PyDict _ | PyImmutableDict _ => true
  | PyTuple l | PyList l | PyImmutableList l | PySet l | PyFrozenset l =>
      existsb holds_map l
  | _ => false
  end.

(** [obj] is a set or holds one at some depth. *)
Fixpoint holds_set (obj : pyobj) : bool :=
  match obj with
  | PySet _ | PyFrozenset _ => true
  | PyTuple l | PyList l | PyImmutableList l => existsb holds_set l
  | PyDict l | PyImmutableDict l =>
      existsb (fun kv => let '(k, v) := kv in holds_set k || holds_set v) l
  | _ => false
  end.

(** [obj] is a byte string or holds one at some depth. *)
Fixpoint holds_bytes (obj : pyobj) : bool :=
  match obj with
  | PyBytes _ => true
  | PyTuple l | PyList l | PyImmutableList l | PySet l | PyFrozenset l =>
      existsb holds_bytes l
  | PyDict l | PyImmutableDict l =>
      existsb (fun kv => let '(k, v) := kv in holds_bytes k || holds_bytes v) l
  | _ => false
  end.



(** * Part II: the properties *)

(** ** The escaping function *)

Lemma ESCAPE_DCT_covers_class (c : char) :
  ESCAPE c = true → ESCAPE_DCT !! [c] = Some (spec_escape_char c).
Proof.
  intros Hc.
  assert (Hall : forallb (fun c => bool_decide (ESCAPE_DCT !! [c] = Some (spec_escape_char c)))
                         (0x5c :: 0x22 :: range 0x20) = true)
    by (vm_compute; reflexivity).
  rewrite forallb_forall in Hall.
  eapply bool_decide_eq_true_1, Hall.
  unfold ESCAPE, BACKSLASH, DQUOTE in Hc.
  repeat rewrite orb_true_iff in Hc.
  rewrite N.leb_le in Hc. repeat rewrite N.eqb_eq in Hc.
  assert (Hcases : c = 0x5c ∨ c = 0x22 ∨ c <= 0x1f) by lia.
  destruct Hcases as [-> | [-> | Hle]]; [now left | now right; left |].
  right; right. unfold range. apply in_map_iff.
  exists (N.to_nat c). split; [lia |]. apply in_seq. lia.
Qed.

Lemma spec_escape_char_outside_class (c : char) :
  ESCAPE c = false → spec_escape_char c = [c].
Proof.
  unfold ESCAPE, BACKSLASH, DQUOTE, spec_escape_char. intros Hc.
  repeat (apply orb_false_iff in Hc; destruct Hc as [Hc ?]).
  repeat match goal with H : (_ =? _) = false |- _ => rewrite H; clear H end.
  now rewrite Hc.
Qed.

Lemma re_sub_ESCAPE (s : text) :
  re_sub ESCAPE
    (fun group0 => match ESCAPE_DCT !! group0 with
                   | Some r => Ok r
                   | None => Raise (KeyError group0)
                   end) s
  = Ok (flat_map spec_escape_char s).
Proof.
  induction s as [| c s IH]; [reflexivity |].
  cbn [re_sub flat_map]. rewrite IH.
  destruct (ESCAPE c) eqn:Hc.
  - rewrite (ESCAPE_DCT_covers_class c Hc). reflexivity.
  - rewrite (spec_escape_char_outside_class c Hc). reflexivity.
Qed.

Lemma unicode_escape_Ok (s : text) :
  unicode_escape s = Ok (spec_string_literal s).
Proof. unfold unicode_escape. rewrite re_sub_ESCAPE. reflexivity. Qed.

(** C1: for every text [s], [unicode_escape] returns the double-quoted
    literal in which a backslash, a double quote, a backspace, a form feed,
    a newline, a carriage return and a tab are replaced by their named
    two-character escapes, every other character below 0x20 by backslash,
    u and its four hexadecimal digits, and every other character is kept;
    the empty text gives the two quotes. *)
Theorem unicode_escape_spec (s : text) :
  unicode_escape s = Ok (spec_string_literal s)
  ∧ unicode_escape [] = Ok [DQUOTE; DQUOTE].
Proof.
  split; [apply unicode_escape_Ok | reflexivity].
Qed.

(** ** Comprehensions *)

Lemma bind_assoc {A B C} (r : result A) (f : A → result B) (g : B → result C) :
  bind (bind r f) g = bind r (fun a => bind (f a) g).
Proof. now destruct r. Qed.

Lemma for_each_ext {A B} (f g : A → result B) (l : list A) :
  Forall (fun x => f x = g x) l → for_each f l = for_each g l.
Proof.
  induction 1 as [| x l Hx _ IH]; [reflexivity |].
  cbn [for_each]. now rewrite Hx, IH.
Qed.

Lemma for_each_length {A B} (f : A → result B) (l : list A) (ys : list B) :
  for_each f l = Ok ys → length ys = length l.
Proof.
  revert ys. induction l as [| x l IH]; intros ys; cbn [for_each].
  - intros [= <-]. reflexivity.
  - destruct (f x) as [e | y]; [discriminate |]. cbn [bind].
    destruct (for_each f l) as [e | ys']; [discriminate |].
    intros [= <-]. cbn [length]. now rewrite (IH ys').
Qed.

Lemma for_each_key_text {A} (key : A → result text) (l : list A) (ks : list text) :
  for_each key l = Ok ks → ks = map (key_text key) l.
Proof.
  revert ks. induction l as [| x l IH]; intros ks; cbn [for_each].
  - intros [= <-]. reflexivity.
  - destruct (key x) as [e | k] eqn:Hx; [discriminate |]. cbn [bind].
    destruct (for_each key l) as [e | ks']; [discriminate |].
    intros [= <-]. cbn [map]. unfold key_text at 1. rewrite Hx.
    f_equal. now apply IH.
Qed.

Lemma for_each_Ok_iff {A} (key : A → result text) (l : list A) :
  (∃ ks, for_each key l = Ok ks) ↔ Forall (fun x => ∃ k, key x = Ok k) l.
Proof.
  induction l as [| x l IH]; cbn [for_each].
  - split; [constructor | eexists; reflexivity].
  - split.
    + intros [ks Hks]. destruct (key x) as [e | k] eqn:Hx; [discriminate |].
      cbn [bind] in Hks.
      destruct (for_each key l) as [e | ks']; [discriminate |].
      constructor; [now exists k | apply IH; now exists ks'].
    + intros Hall. inversion Hall as [| ? ? [k Hk] Hl]; subst.
      apply IH in Hl as [ks' Hks']. rewrite Hk, Hks'. eexists; reflexivity.
Qed.

Lemma for_each_Raise {A B} (f : A → result B) (l : list A) (e : exn) :
  for_each f l = Raise e → ∃ x, x ∈ l ∧ f x = Raise e.
Proof.
  induction l as [| x l IH]; cbn [for_each]; [discriminate |].
  destruct (f x) as [e' | y] eqn:Hx.
  - intros [= ->]. exists x. split; [left | exact Hx].
  - cbn [bind]. destruct (for_each f l) as [e' | ys]; [| discriminate].
    intros [= ->]. destruct (IH eq_refl) as (x' & Hin & Hx').
    exists x'. split; [now right | exact Hx'].
Qed.

Lemma for_each_elem_Raise {A B} (f : A → result B) (l : list A) (x : A) :
  x ∈ l → (∃ e, f x = Raise e) → ∃ e, for_each f l = Raise e.
Proof.
  intros Hin [e He]. induction Hin as [x l | x y l Hin IH]; cbn [for_each].
  - rewrite He. now exists e.
  - destruct (f y) as [e' | b]; [now exists e' |]. cbn [bind].
    destruct (IH He) as [e' He']. rewrite He'. now exists e'.
Qed.

Lemma lib_Raise {A} (r : lib_exn + A) (e : exn) :
  lib r = Raise e → ∃ le, e = LibraryError le.
Proof. destruct r as [le |]; [intros [= <-]; now exists le | discriminate]. Qed.

(** ** The order of text *)

Lemma text_ltb_irrefl (a : text) : text_ltb a a = false.
Proof.
  induction a as [| x a IH]; [reflexivity |].
  cbn [text_ltb]. now rewrite N.ltb_irrefl, N.eqb_refl, IH.
Qed.

Lemma text_ltb_trans (a b c : text) :
  text_ltb a b = true → text_ltb b c = true → text_ltb a c = true.
Proof.
  revert b c. induction a as [| x a IH]; intros [| y b] [| z c]; cbn [text_ltb];
    try reflexivity; try discriminate.
  rewrite !orb_true_iff, !andb_true_iff, !N.ltb_lt, !N.eqb_eq.
  intros [Hxy | [-> Hab]] [Hyz | [<- Hbc]]; try (left; lia).
  right. split; [reflexivity | eauto].
Qed.

Lemma text_ltb_total (a b : text) :
  text_ltb a b = true ∨ a = b ∨ text_ltb b a = true.
Proof.
  revert b. induction a as [| x a IH]; intros [| y b]; cbn [text_ltb]; auto.
  rewrite !orb_true_iff, !andb_true_iff, !N.ltb_lt, !N.eqb_eq.
  destruct (N.lt_total x y) as [? | [-> | ?]]; auto.
  destruct (IH b) as [? | [-> | ?]]; auto.
Qed.

Lemma text_ltb_asym (a b : text) :
  text_ltb a b = true → text_ltb b a = false.
Proof.
  intros Hab. destruct (text_ltb b a) eqn:Hba; [| reflexivity].
  pose proof (text_ltb_trans _ _ _ Hab Hba) as Haa.
  now rewrite text_ltb_irrefl in Haa.
Qed.

(** ** The stable sort *)

Lemma insert_by_perm {A} (k : text) (x : A) (l : list (text * A)) :
  insert_by k x l ≡ₚ (k, x) :: l.
Proof.
  induction l as [| [k' y] l IH]; cbn [insert_by]; [reflexivity |].
  destruct (text_ltb k' k); [| reflexivity].
  rewrite IH. apply Permutation_swap.
Qed.

Lemma stable_sort_perm {A} (l : list (text * A)) : stable_sort l ≡ₚ l.
Proof.
  induction l as [| [k x] l IH]; [reflexivity |].
  unfold stable_sort in *. cbn [foldr fst snd].
  now rewrite insert_by_perm, IH.
Qed.

(** Two insertions of distinct keys commute. *)
Lemma insert_by_comm {A} (k1 k2 : text) (x1 x2 : A) (l : list (text * A)) :
  k1 ≠ k2 →
  insert_by k1 x1 (insert_by k2 x2 l) = insert_by k2 x2 (insert_by k1 x1 l).
Proof.
  intros Hne. induction l as [| [k y] l IH]; cbn [insert_by].
  - destruct (text_ltb_total k1 k2) as [H12 | [? | H21]]; [| contradiction |].
    + now rewrite H12, (text_ltb_asym _ _ H12).
    + now rewrite H21, (text_ltb_asym _ _ H21).
  - destruct (text_ltb k k1) eqn:Hk1, (text_ltb k k2) eqn:Hk2; cbn [insert_by];
      rewrite ?Hk1, ?Hk2.
    + now rewrite IH.
    + destruct (text_ltb k2 k1) eqn:H21; [reflexivity |].
      destruct (text_ltb_total k1 k2) as [H12 | [? | H21']];
        [| contradiction | congruence].
      now rewrite (text_ltb_trans _ _ _ Hk1 H12) in Hk2.
    + destruct (text_ltb k1 k2) eqn:H12; [reflexivity |].
      destruct (text_ltb_total k1 k2) as [H12' | [? | H21]];
        [congruence | contradiction |].
      now rewrite (text_ltb_trans _ _ _ Hk2 H21) in Hk1.
    + destruct (text_ltb_total k1 k2) as [H12 | [? | H21]]; [| contradiction |].
      * now rewrite H12, (text_ltb_asym _ _ H12).
      * now rewrite H21, (text_ltb_asym _ _ H21).
Qed.

(** With distinct keys the order of the input does not show in the sort. *)
Lemma stable_sort_Permutation {A} (l1 l2 : list (text * A)) :
  l1 ≡ₚ l2 → NoDup (map fst l1) → stable_sort l1 = stable_sort l2.
Proof.
  induction 1 as [| [k x] l1 l2 Hp IH | [k1 x1] [k2 x2] l | l1 l2 l3 H12 IH12 H23 IH23];
    intros Hnd.
  - reflexivity.
  - unfold stable_sort in *. cbn [foldr fst snd].
    rewrite IH; [reflexivity |]. now inversion Hnd.
  - unfold stable_sort. cbn [foldr fst snd]. apply insert_by_comm.
    cbn [map fst] in Hnd. inversion Hnd as [| ? ? Hnotin _]; subst.
    intros ->. apply Hnotin. left.
  - rewrite IH12 by assumption. apply IH23.
    assert (Hm : map fst l1 ≡ₚ map fst l2) by now apply Permutation_map.
    now rewrite <- Hm.
Qed.

Lemma insert_by_sorted {A} (k : text) (x : A) (l : list (text * A)) :
  StronglySorted key_le l → StronglySorted key_le (insert_by k x l).
Proof.
  induction 1 as [| [k' y] l Hs IH Hall]; cbn [insert_by].
  - repeat constructor.
  - destruct (text_ltb k' k) eqn:Hlt.
    + constructor; [exact IH |].
      rewrite (insert_by_perm k x l). constructor; [| exact Hall].
      unfold key_le. cbn [fst]. now apply text_ltb_asym.
    + constructor; [now constructor |].
      constructor; [exact Hlt |].
      eapply Forall_impl; [exact Hall |].
      intros [k'' z]. unfold key_le. cbn [fst]. intros Hle.
      destruct (text_ltb k'' k) eqn:Hk''; [| reflexivity].
      destruct (text_ltb_total k' k) as [? | [-> | Hkk']]; [congruence | congruence |].
      now rewrite (text_ltb_trans _ _ _ Hk'' Hkk') in Hle.
Qed.

Lemma stable_sort_sorted {A} (l : list (text * A)) :
  StronglySorted key_le (stable_sort l).
Proof.
  induction l as [| [k x] l IH]; [constructor |].
  unfold stable_sort in *. cbn [foldr fst snd]. now apply insert_by_sorted.
Qed.

(** ** [sorted] with a key *)

Lemma zip_key_text {A} (key : A → result text) (l : list A) :
  zip (map (key_text key) l) l = decorate key l.
Proof. induction l as [| x l IH]; [reflexivity |]. cbn. now rewrite IH. Qed.

Lemma sorted_by_decorate {A} (key : A → result text) (l : list A) (ks : list text) :
  for_each key l = Ok ks →
  sorted_by key l = Ok (map snd (stable_sort (decorate key l))).
Proof.
  intros Hks. unfold sorted_by. rewrite Hks. cbn [bind Ok].
  now rewrite (for_each_key_text key l ks Hks), zip_key_text.
Qed.

Lemma sorted_by_Ok {A} (key : A → result text) (l l' : list A) :
  sorted_by key l = Ok l' →
  ∃ ks, for_each key l = Ok ks ∧ l' = map snd (stable_sort (decorate key l)).
Proof.
  intros Hs. destruct (for_each key l) as [e | ks] eqn:Hks.
  - unfold sorted_by in Hs. now rewrite Hks in Hs.
  - exists ks. split; [reflexivity |].
    rewrite (sorted_by_decorate key l ks Hks) in Hs. now injection Hs.
Qed.

Lemma snd_decorate {A} (key : A → result text) (l : list A) :
  map snd (decorate key l) = l.
Proof.
  unfold decorate. induction l as [| x l IH]; [reflexivity |].
  cbn [map snd]. now rewrite IH.
Qed.

Lemma fst_decorate {A} (key : A → result text) (l : list A) :
  map fst (decorate key l) = map (key_text key) l.
Proof.
  unfold decorate. induction l as [| x l IH]; [reflexivity |].
  cbn [map fst]. now rewrite IH.
Qed.

Lemma sorted_by_perm {A} (key : A → result text) (l l' : list A) :
  sorted_by key l = Ok l' → l' ≡ₚ l.
Proof.
  intros (ks & _ & ->)%sorted_by_Ok.
  etrans; [apply Permutation_map, stable_sort_perm |].
  now rewrite snd_decorate.
Qed.

Lemma sorted_by_Permutation {A} (key : A → result text) (l1 l2 : list A) (ks : list text) :
  l1 ≡ₚ l2 → for_each key l1 = Ok ks → NoDup ks →
  sorted_by key l1 = sorted_by key l2.
Proof.
  intros Hp Hks Hnd.
  assert (H2 : ∃ ks2, for_each key l2 = Ok ks2).
  { apply for_each_Ok_iff. rewrite <- Hp. apply for_each_Ok_iff. now exists ks. }
  destruct H2 as [ks2 Hks2].
  rewrite (sorted_by_decorate key l1 ks Hks), (sorted_by_decorate key l2 ks2 Hks2).
  do 2 f_equal. apply stable_sort_Permutation.
  - unfold decorate. now apply Permutation_map.
  - rewrite fst_decorate, <- (for_each_key_text key l1 ks Hks). exact Hnd.
Qed.

Lemma sorted_by_sorted {A} (key : A → result text) (l l' : list A) :
  sorted_by key l = Ok l' → StronglySorted (text_le_by key) l'.
Proof.
  intros (ks & _ & ->)%sorted_by_Ok.
  assert (Hdec : Forall (fun p => p.1 = key_text key p.2) (stable_sort (decorate key l))).
  { rewrite stable_sort_perm. unfold decorate. apply Forall_fmap, Forall_true. now intros. }
  pose proof (stable_sort_sorted (decorate key l)) as Hs.
  induction Hs as [| [k x] s Hs IH Hall]; [constructor |].
  inversion Hdec as [| ? ? Hx Hdec']; subst. cbn [fst snd] in Hx. subst k.
  cbn [map snd]. constructor; [now apply IH |].
  apply Forall_fmap.
  eapply Forall_impl; [apply Forall_and; split; [exact Hall | exact Hdec'] |].
  intros [k' y] [Hle Hk']. cbn [fst snd] in *. subst k'.
  exact Hle.
Qed.

(** The elements of key [k0] keep their places among themselves. *)
Lemma insert_by_filter {A} (k0 k : text) (x : A) (l : list (text * A)) :
  List.filter (fun p => bool_decide (p.1 = k0)) (insert_by k x l)
  = List.filter (fun p => bool_decide (p.1 = k0)) ((k, x) :: l).
Proof.
  induction l as [| [k' y] l IH]; [reflexivity |].
  cbn [insert_by]. destruct (text_ltb k' k) eqn:Hlt; [| reflexivity].
  cbn [List.filter fst] in *. rewrite IH.
  destruct (bool_decide (k' = k0)) eqn:Hk'; [| reflexivity].
  apply bool_decide_eq_true_1 in Hk'. subst k'.
  destruct (bool_decide (k = k0)) eqn:Hk; [| reflexivity].
  apply bool_decide_eq_true_1 in Hk. subst k.
  now rewrite text_ltb_irrefl in Hlt.
Qed.

Lemma stable_sort_filter {A} (k0 : text) (l : list (text * A)) :
  List.filter (fun p => bool_decide (p.1 = k0)) (stable_sort l)
  = List.filter (fun p => bool_decide (p.1 = k0)) l.
Proof.
  induction l as [| [k x] l IH]; [reflexivity |].
  unfold stable_sort in *. cbn [foldr fst snd]. rewrite insert_by_filter.
  cbn [List.filter fst]. now rewrite IH.
Qed.

Lemma filter_snd_decorated {A} (key : A → result text) (k0 : text) (L : list (text * A)) :
  Forall (fun p => p.1 = key_text key p.2) L →
  List.filter (fun x => bool_decide (key_text key x = k0)) (map snd L)
  = map snd (List.filter (fun p => bool_decide (p.1 = k0)) L).
Proof.
  induction 1 as [| [k x] L Hx _ IH]; [reflexivity |].
  cbn [map List.filter fst snd] in *. subst k. rewrite IH.
  now destruct (bool_decide (key_text key x = k0)).
Qed.

Lemma sorted_by_filter {A} (key : A → result text) (l l' : list A) (k : text) :
  sorted_by key l = Ok l' →
  List.filter (fun x => bool_decide (key_text key x = k)) l'
  = List.filter (fun x => bool_decide (key_text key x = k)) l.
Proof.
  intros (ks & _ & ->)%sorted_by_Ok.
  assert (Hdec : ∀ L, L ≡ₚ decorate key l → Forall (fun p => p.1 = key_text key p.2) L).
  { intros L ->. unfold decorate. apply Forall_forall. intros p Hp.
    apply list_elem_of_In, in_map_iff in Hp as (y & <- & _). reflexivity. }
  rewrite (filter_snd_decorated key k) by apply Hdec, stable_sort_perm.
  rewrite stable_sort_filter.
  rewrite <- (filter_snd_decorated key k) by now apply Hdec.
  now rewrite snd_decorate.
Qed.

(** ** The dispatch and the depth of the calls *)

Section Dispatch.
Context {rt : Runtime}.

Lemma _dump_body_cases (self : Dumper) (_dump : pyobj → result text) (obj : pyobj) :
  _dump_body self _dump obj = dump_cases self _dump obj.
Proof.
  unfold _dump_body, dump_cases, dump_map_with, dump_set_with, rendered_pairs,
    dump_seq_with, long, basestring, sorted, unicode, py_format.
  destruct obj; destruct PY3;
    cbn [is_None isinstance existsb type_of];
    repeat match goal with
      | |- context [issubclass ?a ?b] =>
          let v := eval vm_compute in (issubclass a b) in
          change (issubclass a b) with v
      end;
    cbn [orb py_iter items decode as_text numerator denominator generate
         isoformat py_repr py_truth bind Ok lib];
    rewrite ?bind_assoc; reflexivity.
Qed.

Lemma _dump_cases (self : Dumper) (depth : nat) (obj : pyobj) :
  _dump self (S depth) obj = dump_cases self (_dump self depth) obj.
Proof. cbn [_dump]. apply _dump_body_cases. Qed.

Lemma _dump_map (self : Dumper) (depth : nat) (pairs : list (pyobj * pyobj)) :
  _dump self (S depth) (PyDict pairs)
  = (let! ps := rendered_pairs self pairs in
     let! s := _dump_seq self depth (chain_from_iterable ps) in
     Ok (u "{" ++ s ++ u "}")).
Proof. rewrite _dump_cases. reflexivity. Qed.

(** What line 109 does to a key: a text or a byte string becomes a
    Keyword of that name, every other key is kept. *)
Lemma coerce_key_cases (k v : pyobj) :
  coerce_key (k, v)
  = (match k with PyStr _ | PyBytes _ => PyKeyword k | _ => k end, v).
Proof.
  unfold coerce_key, basestring. cbn [fst snd].
  destruct k; destruct PY3; reflexivity.
Qed.

Lemma within_elts (l : list pyobj) :
  within (S (max_list (map nesting l))) l.
Proof.
  apply Forall_forall. intros x Hx.
  apply Nat.lt_succ_r, max_list_elem_of_le.
  apply list_elem_of_In, in_map, list_elem_of_In, Hx.
Qed.

Lemma within_pairs (l : list (pyobj * pyobj)) :
  within (S (max_list (map (fun kv => let '(k, v) := kv in
                                      Nat.max (nesting k) (nesting v)) l)))
         (chain_from_iterable l).
Proof.
  induction l as [| [k v] l IH]; [constructor |].
  cbn [chain_from_iterable flat_map map max_list_with app fst snd id].
  set (m := max_list_with _ _).
  constructor; [lia | constructor; [lia |]].
  eapply Forall_impl; [exact IH |]. cbn beta. fold m. intros x Hx. lia.
Qed.

Lemma within_coerce (n : nat) (ps : list (pyobj * pyobj)) :
  within n (chain_from_iterable ps) →
  within n (chain_from_iterable (map coerce_key ps)).
Proof.
  unfold within, chain_from_iterable.
  induction ps as [| [k v] ps IH]; [constructor |].
  cbn [flat_map map app fst snd coerce_key].
  intros Hall. inversion Hall as [| ? ? Hk Hall']; subst.
  inversion Hall' as [| ? ? Hv Hall'']; subst.
  constructor; [| constructor; [exact Hv | now apply IH]].
  destruct (isinstance k [c_bytes; basestring]); [| exact Hk].
  cbn [Keyword nesting]. lia.
Qed.

Lemma within_rendered_pairs (self : Dumper) (n : nat) (l ps : list (pyobj * pyobj)) :
  rendered_pairs self l = Ok ps →
  within n (chain_from_iterable l) → within n (chain_from_iterable ps).
Proof.
  unfold rendered_pairs. intros Hr Hl.
  assert (Hsorted : ∀ l', (if sort_keys self
                          then sorted_by (fun p => py_str p.1) l
                          else Ok l) = Ok l' → within n (chain_from_iterable l')).
  { intros l' Hl'. destruct (sort_keys self).
    - apply sorted_by_perm in Hl'. unfold within, chain_from_iterable.
      now rewrite (Permutation_flat_map _ Hl').
    - now injection Hl' as <-. }
  destruct (if sort_keys self then _ else _) as [e | l']; [discriminate |].
  cbn [bind Ok] in Hr. injection Hr as <-.
  destruct (keyword_keys self); [apply within_coerce |]; now apply Hsorted.
Qed.

Lemma dump_seq_with_ext (f g : pyobj → result text) (n : nat) (objs : list pyobj) :
  (∀ x, (nesting x < n)%nat → f x = g x) → within n objs →
  dump_seq_with f objs = dump_seq_with g objs.
Proof.
  intros Hfg Hn. unfold dump_seq_with.
  rewrite (for_each_ext f g objs); [reflexivity |].
  eapply Forall_impl; [exact Hn |]. exact Hfg.
Qed.

(** [dump_cases] depends on the dumper through four of its fields, and on
    the recursive call at objects nested less deep only. *)
Lemma dump_cases_ext (self self' : Dumper) (f g : pyobj → result text) (obj : pyobj) :
  string_encoding self = string_encoding self' →
  keyword_keys self = keyword_keys self' →
  sort_keys self = sort_keys self' →
  sort_sets self = sort_sets self' →
  (∀ x, (nesting x < nesting obj)%nat → f x = g x) →
  dump_cases self f obj = dump_cases self' g obj.
Proof.
  intros Hse Hkk Hsk Hss Hfg.
  assert (Hseq : ∀ l, (nesting obj = S (max_list (map nesting l)))%nat →
                      ∀ l', l' ≡ₚ l → dump_seq_with f l' = dump_seq_with g l').
  { intros l Hn l' Hp. apply (dump_seq_with_ext f g (nesting obj)); [exact Hfg |].
    unfold within. rewrite Hp, Hn. apply within_elts. }
  assert (Hset : ∀ l, (nesting obj = S (max_list (map nesting l)))%nat →
                      dump_set_with self f l = dump_set_with self' g l).
  { intros l Hn. unfold dump_set_with. rewrite <- Hss.
    destruct (sort_sets self).
    - destruct (rt_sorted l) as [e | l'] eqn:Hl'; [reflexivity |].
      cbn [lib bind Ok]. now rewrite (Hseq l Hn l' (rt_sorted_perm l l' Hl')).
    - cbn [bind Ok]. now rewrite (Hseq l Hn l). }
  assert (Hmap : ∀ l, (nesting obj = S (max_list (map (fun kv => let '(k, v) := kv in
                         Nat.max (nesting k) (nesting v)) l)))%nat →
                      dump_map_with self f l = dump_map_with self' g l).
  { intros l Hn. unfold dump_map_with.
    replace (rendered_pairs self' l) with (rendered_pairs self l)
      by (unfold rendered_pairs; now rewrite Hkk, Hsk).
    destruct (rendered_pairs self l) as [e | ps] eqn:Hps; [reflexivity |].
    cbn [bind Ok].
    rewrite (dump_seq_with_ext f g (nesting obj)); [reflexivity | exact Hfg |].
    apply (within_rendered_pairs self _ l ps Hps). rewrite Hn. apply within_pairs. }
  destruct obj; cbn [dump_cases]; rewrite <- ?Hse;
    try reflexivity;
    try (now rewrite (Hseq elts eq_refl elts));
    try (now apply Hset); now apply Hmap.
Qed.

(** A deeper call stack changes nothing once it is deep enough. *)
Lemma _dump_depth (self : Dumper) (n m : nat) (obj : pyobj) :
  (nesting obj < n)%nat → (nesting obj < m)%nat →
  _dump self n obj = _dump self m obj.
Proof.
  revert m obj. induction n as [| n IH]; intros [| m] obj Hn Hm; try lia.
  cbn [_dump]. rewrite !_dump_body_cases.
  apply dump_cases_ext; try reflexivity.
  intros x Hx. apply IH; lia.
Qed.

(** [pretty] is read nowhere. *)
Lemma _dump_same_fields (self self' : Dumper) (n : nat) (obj : pyobj) :
  string_encoding self = string_encoding self' →
  keyword_keys self = keyword_keys self' →
  sort_keys self = sort_keys self' →
  sort_sets self = sort_sets self' →
  _dump self n obj = _dump self' n obj.
Proof.
  intros Hse Hkk Hsk Hss. revert obj.
  induction n as [| n IH]; intros obj; [reflexivity |].
  cbn [_dump]. rewrite !_dump_body_cases.
  apply dump_cases_ext; try assumption.
  intros x _. apply IH.
Qed.

End Dispatch.

(** ** Scalars *)

Section Scalars.
Context {rt : Runtime}.

(** The text of an integer starts with a digit or a minus sign. *)
Lemma int_str_head (z : Z) :
  ∃ c rest, int_str z = c :: rest ∧ (c = 0x2d ∨ 0x30 <= c <= 0x39).
Proof.
  unfold int_str, NilZero.string_of_int, NilZero.string_of_uint.
  destruct (Z.to_int z) as [d | d]; destruct d;
    cbn [u NilEmpty.string_of_uint list_ascii_of_string map];
    eexists _, _; (split; [reflexivity |]); cbn; lia.
Qed.

(** C5: a boolean is an instance of the integer classes tested third, yet
    the test for [bool] comes first, so every boolean is rendered as
    [true] or [false], which is the decimal text of no integer. *)
Theorem bool_before_int (self : Dumper) (depth : nat) (b : bool) :
  isinstance (PyBool b) [c_int; long; c_float] = true
  ∧ _dump self (S depth) (PyBool b) = Ok (if b then u "true" else u "false")
  ∧ (∀ z : Z, _dump self (S depth) (PyBool b) ≠ Ok (int_str z))
  ∧ Dumper_dump {| string_encoding := string_encoding self;
                   output_encoding := None;
                   keyword_keys := keyword_keys self;
                   sort_keys := sort_keys self;
                   sort_sets := sort_sets self;
                   pretty := pretty self |} (PyBool b)
    = Ok (Text (if b then u "true" else u "false")).
Proof.
  split; [reflexivity |]. split; [rewrite _dump_cases; reflexivity |]. split.
  - intros z. rewrite _dump_cases. cbn [dump_cases].
    destruct (int_str_head z) as (c & rest & -> & Hc).
    destruct b; intros [= <- _]; lia.
  - unfold Dumper_dump. rewrite _dump_cases. reflexivity.
Qed.

(** C7, as the code has it: a [datetime] is an instance of [date], and
    the test for [datetime] comes first, so a value with a time of day
    never takes the rendering of a date.  When [pyrfc3339.generate]
    returns a text for it, with microseconds, it is encoded as [#inst]
    and that text between double quotes; when [generate] raises, as it
    does for a datetime without a time zone, the encoding raises what it
    raised.  A date is encoded as [#inst] and its ISO 8601 form between
    double quotes. *)
Theorem datetime_before_date (self : Dumper) (depth : nat) (dt : datetime_t) (d : date_t) :
  isinstance (PyDatetime dt) [c_date] = true
  ∧ (∀ s, pyrfc3339_generate dt true = inr s →
       _dump self (S depth) (PyDatetime dt)
       = Ok (u "#inst " ++ [DQUOTE] ++ s ++ [DQUOTE]))
  ∧ (∀ e, pyrfc3339_generate dt true = inl e →
       _dump self (S depth) (PyDatetime dt) = Raise (LibraryError e))
  ∧ _dump self (S depth) (PyDate d)
    = Ok (u "#inst " ++ [DQUOTE] ++ date_isoformat d ++ [DQUOTE]).
Proof.
  split; [reflexivity |]. rewrite !_dump_cases. cbn [dump_cases].
  split; [| split]; [intros s -> | intros e -> |]; reflexivity.
Qed.

(** C10: a byte string that [string_encoding] decodes is encoded as the
    text it decodes to is. *)
Theorem bytes_as_decoded_text (self : Dumper) (depth : nat) (b : bytes) (s : text) :
  codec_decode (string_encoding self) b = inr s →
  _dump self (S depth) (PyBytes b) = _dump self (S depth) (PyStr s).
Proof.
  intros Hs. rewrite !_dump_cases. cbn [dump_cases]. now rewrite Hs.
Qed.

(** On Python 2 the byte string is an instance of [basestring] as well,
    and still takes the branch that decodes it. *)
Lemma bytes_before_basestring (self : Dumper) (depth : nat) (b : bytes) :
  isinstance (PyBytes b) [basestring] = negb PY3
  ∧ _dump self (S depth) (PyBytes b)
    = (let! s := lib (codec_decode (string_encoding self) b) in unicode_escape s).
Proof.
  split; [unfold basestring; now destruct PY3 | rewrite _dump_cases; reflexivity].
Qed.

End Scalars.

(** ** The options *)

Section Options.
Context {rt : Runtime}.

(** Of the module with line 73 made good: [pretty] is stored and read
    nowhere, so [Dumper.dump] and [dump] return with it what they return
    without it.  This says nothing of the module as it is, which line 73
    keeps from being loaded. *)
Lemma pretty_ignored (self : Dumper) (obj : pyobj) (enc_in : text)
    (enc_out : option text) (kk sk ss : bool) :
  Dumper_dump (with_pretty true self) obj = Dumper_dump (with_pretty false self) obj
  ∧ dump obj enc_in enc_out kk sk ss true = dump obj enc_in enc_out kk sk ss false.
Proof.
  split; unfold dump, Dumper_dump;
    (erewrite _dump_same_fields; [reflexivity | reflexivity ..]).
Qed.

(** C4, as the code has it: [Dumper.dump] encodes the text when its
    [output_encoding] is a non-empty name and returns the text otherwise;
    [dump] hands its [output_encoding] to the dumper on Python 2 only, so
    on Python 3 it returns text whatever encoding is asked for. *)
Theorem dump_output (self : Dumper) (obj : pyobj) (enc_in : text)
    (enc_out : option text) (kk sk ss p : bool) :
  Dumper_dump self obj
  = (let! s := _dump self (S (nesting obj)) obj in
     match output_encoding self with
     | Some (c :: enc) => let! b := lib (codec_encode (c :: enc) s) in Ok (Bytes b)
     | _ => Ok (Text s)
     end)
  ∧ dump obj enc_in enc_out kk sk ss p
    = (let! s := _dump {| string_encoding := enc_in;
                          output_encoding := None;
                          keyword_keys := kk;
                          sort_keys := sk;
                          sort_sets := ss;
                          pretty := p |} (S (nesting obj)) obj in
       if PY3 then Ok (Text s)
       else match enc_out with
            | Some (c :: enc) => let! b := lib (codec_encode (c :: enc) s) in Ok (Bytes b)
            | _ => Ok (Text s)
            end).
Proof.
  split.
  - unfold Dumper_dump. destruct (_dump self _ obj); [reflexivity |].
    cbn [bind]. now destruct (output_encoding self) as [[| c enc] |].
  - unfold dump, Dumper_dump. cbn [output_encoding].
    set (d0 := {| output_encoding := None; pretty := p |}).
    rewrite (_dump_same_fields _ d0) by reflexivity.
    destruct (_dump d0 _ obj); [reflexivity |]. cbn [bind].
    destruct PY3; [reflexivity |]. now destruct enc_out as [[| c enc] |].
Qed.

End Options.

(** ** Maps *)

Section Maps.
Context {rt : Runtime}.

(** C2, as the code has it: with [keyword_keys] and [sort_keys] both set,
    the pairs are sorted first, by the text of the keys as they are in the
    map, and the keys are coerced afterwards, in that order. *)
Theorem sort_keys_before_keyword_keys (self : Dumper) (depth : nat)
    (pairs : list (pyobj * pyobj)) :
  keyword_keys self = true → sort_keys self = true →
  _dump self (S depth) (PyDict pairs)
  = (let! sorted := sorted_by (fun p => py_str p.1) pairs in
     let! s := _dump_seq self depth (chain_from_iterable (map coerce_key sorted)) in
     Ok (u "{" ++ s ++ u "}"))
  ∧ ∀ sorted, sorted_by (fun p => py_str p.1) pairs = Ok sorted →
      sorted ≡ₚ pairs
      ∧ StronglySorted (text_le_by (fun p => py_str p.1)) sorted.
Proof.
  intros Hkk Hsk. split.
  - rewrite _dump_map. unfold rendered_pairs. rewrite Hkk, Hsk.
    now destruct (sorted_by _ pairs).
  - intros sorted Hs. split; [eapply sorted_by_perm | eapply sorted_by_sorted]; exact Hs.
Qed.

(** C6, as the code has it: with [sort_keys] set, what [_dump] emits for
    a map are its pairs in the order the sort of line 107 leaves them,
    one after the other.  That order holds the pairs of the map, each
    once; no key in it has a text below the text of a key in front of it;
    and the pairs whose keys have the same text stand in it as they came
    in.  Two maps that hold the same pairs, whose keys all have a text and
    no two the same text, are therefore encoded alike. *)
Theorem sort_keys_deterministic (self : Dumper) (depth : nat)
    (pairs : list (pyobj * pyobj)) :
  sort_keys self = true →
  _dump self (S depth) (PyDict pairs)
  = (let! sorted := sorted_by (fun p => py_str p.1) pairs in
     let! s := _dump_seq self depth
                 (chain_from_iterable
                    (if keyword_keys self then map coerce_key sorted else sorted)) in
     Ok (u "{" ++ s ++ u "}"))
  ∧ (∀ sorted, sorted_by (fun p => py_str p.1) pairs = Ok sorted →
       sorted ≡ₚ pairs
       ∧ StronglySorted (text_le_by (fun p => py_str p.1)) sorted
       ∧ ∀ k, List.filter
                (fun p => bool_decide (key_text (fun p => py_str p.1) p = k)) sorted
              = List.filter
                  (fun p => bool_decide (key_text (fun p => py_str p.1) p = k)) pairs)
  ∧ (∀ pairs2 ks, pairs ≡ₚ pairs2 →
       for_each (fun p => py_str p.1) pairs = Ok ks → NoDup ks →
       _dump self (S depth) (PyDict pairs) = _dump self (S depth) (PyDict pairs2)).
Proof.
  intros Hsk. split; [| split].
  - rewrite _dump_map. unfold rendered_pairs. rewrite Hsk.
    now destruct (sorted_by _ pairs).
  - intros sorted Hs. split; [eapply sorted_by_perm; exact Hs |].
    split; [eapply sorted_by_sorted; exact Hs |].
    intros k. now apply sorted_by_filter.
  - intros pairs2 ks Hp Hks Hnd. rewrite !_dump_map. unfold rendered_pairs.
    rewrite Hsk. now rewrite (sorted_by_Permutation _ pairs pairs2 ks Hp Hks Hnd).
Qed.


End Maps.

(** ** Exceptions *)

Section Exceptions.
Context {rt : Runtime}.

Lemma occurs_in_leaf (x y : pyobj) :
  children y = [] → occurs_in x y → x = y.
Proof.
  intros Hy Hx. destruct Hx as [| obj y Hin _]; [reflexivity |].
  rewrite Hy in Hin. now apply elem_of_nil in Hin.
Qed.

Lemma within_children (obj : pyobj) : within (nesting obj) (children obj).
Proof.
  destruct obj; cbn [children nesting];
    try apply within_elts; try apply within_pairs; constructor.
Qed.

Lemma py_str_Raise (obj : pyobj) (e : exn) :
  py_str obj = Raise e → ∃ le, e = LibraryError le.
Proof.
  induction obj; cbn [py_str]; try discriminate;
    try (destruct (rt_str _) as [le |]; cbn [lib];
         [intros [= <-]; now exists le | discriminate]).
  all: destruct (py_str obj) as [e' |]; [| discriminate].
  all: cbn [bind]; intros [= <-]; now apply IHobj.
Qed.

(** The objects of the rendered pairs are those of the map, but for the
    Keywords made of its text and byte-string keys. *)
Lemma rendered_pairs_elem (self : Dumper) (l ps : list (pyobj * pyobj)) (x : pyobj) :
  rendered_pairs self l = Ok ps →
  x ∈ chain_from_iterable ps →
  x ∈ chain_from_iterable l ∨ ∃ k, x = PyKeyword k.
Proof.
  unfold rendered_pairs. intros Hr Hx.
  destruct (if sort_keys self then _ else _) as [e | l'] eqn:Hl'; [discriminate |].
  cbn [bind Ok] in Hr. injection Hr as <-.
  assert (Hp : l' ≡ₚ l).
  { destruct (sort_keys self); [now apply sorted_by_perm in Hl' | injection Hl' as <-; reflexivity]. }
  assert (Hc : x ∈ chain_from_iterable (map coerce_key l') →
               x ∈ chain_from_iterable l' ∨ ∃ k, x = PyKeyword k).
  { clear. unfold chain_from_iterable.
    induction l' as [| [k v] l' IH]; cbn [map flat_map app]; [now left |].
    rewrite coerce_key_cases. cbn [fst snd].
    rewrite !elem_of_cons. intros [-> | [-> | Hin]].
    - destruct k; eauto.
    - eauto.
    - destruct (IH Hin); eauto. }
  unfold chain_from_iterable in *. rewrite <- (Permutation_flat_map _ Hp).
  destruct (keyword_keys self); [now apply Hc | now left].
Qed.

(** The converse for the keys and values that are not coerced. *)
Lemma rendered_pairs_keeps (self : Dumper) (l ps : list (pyobj * pyobj)) (x : pyobj) :
  rendered_pairs self l = Ok ps →
  x ∈ chain_from_iterable l →
  x ∈ chain_from_iterable ps ∨ (∃ s, x = PyStr s) ∨ (∃ b, x = PyBytes b).
Proof.
  unfold rendered_pairs. intros Hr Hx.
  destruct (if sort_keys self then _ else _) as [e | l'] eqn:Hl'; [discriminate |].
  cbn [bind Ok] in Hr. injection Hr as <-.
  assert (Hp : l' ≡ₚ l).
  { destruct (sort_keys self); [now apply sorted_by_perm in Hl' | injection Hl' as <-; reflexivity]. }
  unfold chain_from_iterable in *. rewrite <- (Permutation_flat_map _ Hp) in Hx.
  destruct (keyword_keys self); [| now left].
  clear -Hx. induction l' as [| [k v] l' IH]; cbn [map flat_map app] in *; [now left |].
  rewrite coerce_key_cases. cbn [fst snd] in *.
  rewrite !elem_of_cons in *. destruct Hx as [-> | [-> | Hin]].
  - destruct k; eauto.
  - auto.
  - destruct (IH Hin); auto.
Qed.

(** An exception out of [_dump] is the one of line 122, for an object the
    value holds, or comes out of a library call, or is the one of the
    exhausted call stack, the value being nested at least as deep as the
    calls that are allowed. *)
Lemma _dump_Raise (self : Dumper) (n : nat) (obj : pyobj) (e : exn) :
  _dump self n obj = Raise e →
  (∃ cls r, occurs_in (PyObject cls r) obj ∧ e = unsupported cls r)
  ∨ (∃ le, e = LibraryError le)
  ∨ (e = RecursionError ∧ (n <= nesting obj)%nat).
Proof.
  revert obj e. induction n as [| n IH]; intros obj e.
  { cbn [_dump]. intros [= <-]. right; right. split; [reflexivity | lia]. }
  rewrite _dump_cases.
  assert (Hseq : ∀ objs e',
            (∀ x, x ∈ objs →
               (occurs_in x obj ∧ (nesting x < nesting obj)%nat)
               ∨ ((∃ k, x = PyKeyword k) ∧ (1 <= nesting obj)%nat)) →
            dump_seq_with (_dump self n) objs = Raise e' →
            (∃ cls r, occurs_in (PyObject cls r) obj ∧ e' = unsupported cls r)
            ∨ (∃ le, e' = LibraryError le)
            ∨ (e' = RecursionError ∧ (S n <= nesting obj)%nat)).
  { intros objs e' Hsub. unfold dump_seq_with.
    destruct (for_each _ objs) as [e'' |] eqn:Hfe; [| discriminate].
    intros [= <-]. apply for_each_Raise in Hfe as (x & Hin & Hx).
    destruct (IH x e'' Hx) as [(cls & r & Hocc & ->) | [Hlib | [-> Hdepth]]].
    - left. exists cls, r. split; [| reflexivity].
      destruct (Hsub x Hin) as [[Hxo _] | [[k ->] _]].
      + clear -Hocc Hxo. induction Hxo as [| obj y Hy _ IHy]; [exact Hocc |].
        eapply occurs_below; [exact Hy | exact IHy].
      + now apply occurs_in_leaf in Hocc.
    - right; now left.
    - right; right. split; [reflexivity |].
      destruct (Hsub x Hin) as [[_ Hlt] | [[k ->] H1]]; [lia |].
      cbn [nesting] in Hdepth. lia. }
  assert (Hbind : ∀ (r : result text) (k : text → text) e',
            bind r (fun s => Ok (k s)) = Raise e' → r = Raise e').
  { intros [e'' |] k e'; [now intros [= <-] | discriminate]. }
  assert (Hchild : ∀ objs, objs ≡ₚ children obj →
            ∀ x, x ∈ objs →
              (occurs_in x obj ∧ (nesting x < nesting obj)%nat)
              ∨ ((∃ k, x = PyKeyword k) ∧ (1 <= nesting obj)%nat)).
  { intros objs Hp x Hx. left. rewrite Hp in Hx. split.
    - eapply occurs_below; [exact Hx | apply occurs_here].
    - pose proof (within_children obj) as Hw.
      eapply Forall_forall in Hw; [exact Hw | exact Hx]. }
  assert (Hset : ∀ l, children obj = l →
            dump_set_with self (_dump self n) l = Raise e →
            (∃ cls r, occurs_in (PyObject cls r) obj ∧ e = unsupported cls r)
            ∨ (∃ le, e = LibraryError le)
            ∨ (e = RecursionError ∧ (S n <= nesting obj)%nat)).
  { intros l Hl. unfold dump_set_with.
    destruct (sort_sets self).
    - destruct (rt_sorted l) as [le | l'] eqn:Hl'; cbn [lib bind Ok Raise].
      + intros [= <-]. right; left. now exists le.
      + intros He%Hbind. apply (Hseq l' e); [| exact He].
        apply Hchild. rewrite Hl. now apply rt_sorted_perm.
    - cbn [bind Ok]. intros He%Hbind. apply (Hseq l e); [| exact He].
      apply Hchild. now rewrite Hl. }
  assert (Hmap : ∀ l, children obj = chain_from_iterable l → (1 <= nesting obj)%nat →
            dump_map_with self (_dump self n) l = Raise e →
            (∃ cls r, occurs_in (PyObject cls r) obj ∧ e = unsupported cls r)
            ∨ (∃ le, e = LibraryError le)
            ∨ (e = RecursionError ∧ (S n <= nesting obj)%nat)).
  { intros l Hl H1. unfold dump_map_with.
    destruct (rendered_pairs self l) as [e' | ps] eqn:Hps; cbn [bind Ok Raise].
    - intros [= <-]. right; left. unfold rendered_pairs in Hps.
      destruct (sort_keys self); [| discriminate].
      destruct (sorted_by _ l) as [e'' |] eqn:Hs; [| discriminate].
      injection Hps as <-. unfold sorted_by in Hs.
      destruct (for_each _ l) as [e' |] eqn:Hfe; [| discriminate].
      injection Hs as <-. apply for_each_Raise in Hfe as (x & _ & Hx).
      now apply py_str_Raise in Hx.
    - intros He%Hbind. apply (Hseq (chain_from_iterable ps) e); [| exact He].
      intros x Hx.
      destruct (rendered_pairs_elem self l ps x Hps Hx) as [Hin | [k ->]].
      + apply (Hchild (chain_from_iterable l)); [now rewrite Hl | exact Hin].
      + right. split; [now exists k | exact H1]. }
  destruct obj; cbn [dump_cases]; try discriminate;
    try (now intros Hs%py_str_Raise; right; left);
    try (now intros Hs%Hbind%py_str_Raise; right; left);
    try (intros He%Hbind; apply (Hseq elts e); [now apply Hchild | exact He]);
    try (now apply Hset); try (apply Hmap; [reflexivity | cbn [nesting]; lia]).
  - destruct (codec_decode _ b) as [le | s]; cbn [lib bind Ok Raise].
    + intros [= <-]. right; left. now exists le.
    + now rewrite unicode_escape_Ok.
  - now rewrite unicode_escape_Ok.
  - intros Hs%Hbind%lib_Raise. now right; left.
  - intros [= <-]. left. exists cls, repr. split; [apply occurs_here | reflexivity].
Qed.

(** A value that holds an object of another class is not encoded. *)
Lemma occurs_in_Raise (self : Dumper) (cls r : text) (obj : pyobj) :
  occurs_in (PyObject cls r) obj → ∀ n, ∃ e, _dump self n obj = Raise e.
Proof.
  induction 1 as [| obj y Hy Hocc IH]; intros [| n]; try (now eexists).
  { rewrite _dump_cases. now eexists. }
  rewrite _dump_cases.
  assert (Hseq : ∀ objs, y ∈ objs → ∀ (k : text → text),
            ∃ e, bind (dump_seq_with (_dump self n) objs) (fun s => Ok (k s)) = Raise e).
  { intros objs Hin k. unfold dump_seq_with.
    destruct (for_each_elem_Raise (_dump self n) objs y Hin (IH n)) as [e ->].
    now exists e. }
  assert (Hset : ∀ l, children obj = l →
            ∃ e, dump_set_with self (_dump self n) l = Raise e).
  { intros l Hl. unfold dump_set_with. destruct (sort_sets self).
    - destruct (rt_sorted l) as [le | l'] eqn:Hl'; cbn [lib bind Ok Raise];
        [now eexists |].
      apply Hseq. rewrite (rt_sorted_perm l l' Hl'). now rewrite <- Hl.
    - cbn [bind Ok]. apply Hseq. now rewrite <- Hl. }
  assert (Hmap : ∀ l, children obj = chain_from_iterable l →
            ∃ e, dump_map_with self (_dump self n) l = Raise e).
  { intros l Hl. unfold dump_map_with.
    destruct (rendered_pairs self l) as [e' | ps] eqn:Hps; cbn [bind Ok Raise];
      [now eexists |].
    apply Hseq. rewrite Hl in Hy.
    destruct (rendered_pairs_keeps self l ps y Hps Hy) as [Hin | [[s ->] | [b ->]]];
      [exact Hin | now apply occurs_in_leaf in Hocc ..]. }
  destruct obj; cbn [children] in Hy; try (now apply elem_of_nil in Hy);
    cbn [dump_cases]; try (now apply Hseq); try (now apply Hset); now apply Hmap.
Qed.

(** C3, as the code has it: an object of a class outside the ones the
    dispatch tests raises the exception of line 122, whose message holds
    the text of the class and the [repr] of the object; a value that holds
    such an object anywhere gives no output, however many calls the
    interpreter allows; and every exception out of [Dumper.dump] is that
    one, for an object the value holds, or one a library call raised, or
    the one of the exhausted call stack, which takes a value nested as
    deep as the calls allowed. *)
Theorem unsupported_type_error (self : Dumper) (limit : nat) (cls r : text) (obj : pyobj) :
  _dump self (S limit) (PyObject cls r)
  = Raise (NotImplementedError
             (u "encountered object of type '" ++ class_str (type_of (PyObject cls r))
              ++ u "' for which no known encoding is available: " ++ r))
  ∧ (occurs_in (PyObject cls r) obj → ∃ e, Dumper_dump_within limit self obj = Raise e)
  ∧ ∀ e, Dumper_dump_within limit self obj = Raise e →
      (∃ cls' r', occurs_in (PyObject cls' r') obj ∧ e = unsupported cls' r')
      ∨ (∃ le, e = LibraryError le)
      ∨ (e = RecursionError ∧ (limit <= nesting obj)%nat).
Proof.
  split; [rewrite _dump_cases; reflexivity |]. split.
  - intros Hocc. unfold Dumper_dump_within.
    destruct (occurs_in_Raise self cls r obj Hocc limit) as [e ->].
    now exists e.
  - intros e. unfold Dumper_dump_within.
    destruct (_dump self limit obj) as [e' | s] eqn:Hd; cbn [bind].
    + intros [= <-]. apply (_dump_Raise self limit obj e' Hd).
    + destruct (output_encoding self) as [[| c enc] |]; try discriminate.
      destruct (codec_encode (c :: enc) s) as [le |]; cbn [lib bind Ok Raise];
        [| discriminate].
      intros [= <-]. right; left. now exists le.
Qed.

End Exceptions.

(** ** Examples on the sample runtime *)

Example unicode_escape_ex1 :
  unicode_escape (u "a" ++ [0x0a] ++ u "b" ++ [DQUOTE] ++ u "c" ++ [0x01])
  = Ok ([DQUOTE] ++ u "a\nb\" ++ [DQUOTE] ++ u "c\u0001" ++ [DQUOTE]).
Proof. vm_compute. reflexivity. Qed.

Example dump_ex1 :
  dump (rt := py3)
       (PyDict [(PyStr (u "b"), PyInt 1); (PyStr (u "a"), PyList [PyNone; PyBool true])])
       (u "utf-8") None true true false false
  = Ok (Text (u "{:a [nil true] :b 1}")).
Proof. vm_compute. reflexivity. Qed.

(** ** The properties on concrete values *)

(** C2 does not hold as stated: with both options set, the map of the
    Symbol [B] and the text [a] is emitted with [B] first, the order of
    the texts [B] and [a], while the texts of the keys after coercion,
    [B] and [:a], are in the other order. *)
Lemma coerce_then_sort_counterexample :
  dump (rt := py3) (PyDict symbol_and_text_keys) (u "utf-8") None true true false false
  = Ok (Text (u "{B 1 :a 2}"))
  ∧ spec_rendered_pairs (rt := py3) symbol_and_text_keys
    = Ok [(PyKeyword (PyStr (u "a")), PyInt 2); (PySymbol (PyStr (u "B")), PyInt 1)]
  ∧ rendered_pairs (rt := py3) (py3_dumper (u "utf-8") true true) symbol_and_text_keys
    ≠ spec_rendered_pairs (rt := py3) symbol_and_text_keys.
Proof.
  split; [vm_compute; reflexivity |]. split; [vm_compute; reflexivity |].
  vm_compute. discriminate.
Qed.

(** The statement for C2 on the same map. *)
Lemma sort_keys_before_keyword_keys_witness :
  keyword_keys (py3_dumper (u "utf-8") true true) = true
  ∧ sort_keys (py3_dumper (u "utf-8") true true) = true
  ∧ _dump (rt := py3) (py3_dumper (u "utf-8") true true) 2 (PyDict symbol_and_text_keys)
    = (let! sorted := sorted_by (fun p => py_str (rt := py3) p.1) symbol_and_text_keys in
       let! s := _dump_seq (rt := py3) (py3_dumper (u "utf-8") true true) 1
                   (chain_from_iterable (map (coerce_key (rt := py3)) sorted)) in
       Ok (u "{" ++ s ++ u "}")).
Proof.
  split; [reflexivity |]. split; [reflexivity |].
  apply (sort_keys_before_keyword_keys (rt := py3)
           (py3_dumper (u "utf-8") true true) 1 symbol_and_text_keys);
    reflexivity.
Defined.

(** C3 does not hold as stated: a byte string is of a class the dispatch
    tests, and encoding one that [string_encoding] does not decode raises
    the exception of the codec; and a list in a list, both of classes the
    dispatch tests, raises [RecursionError] when one call of [_dump]
    inside another is all the interpreter allows. *)
Lemma decode_error_counterexample :
  isinstance (PyBytes [0xff]) [c_bytes] = true
  ∧ dump (rt := py3) (PyBytes [0xff]) (u "ascii") None false false false false
    = Raise (LibraryError UnicodeDecodeError)
  ∧ Dumper_dump_within (rt := py3) 2 (py3_dumper (u "utf-8") false false)
      (PyList [PyList [PyNone]])
    = Raise RecursionError.
Proof. split; [| split]; vm_compute; reflexivity. Qed.

(** The statement for C3 on a list that holds a complex number, with
    three calls allowed. *)
Lemma unsupported_type_error_witness :
  occurs_in (PyObject (u "complex") (u "(1+2j)")) list_with_complex
  ∧ (∃ e, Dumper_dump_within (rt := py3) 3 (py3_dumper (u "utf-8") false false)
            list_with_complex = Raise e)
  ∧ Dumper_dump_within (rt := py3) 3 (py3_dumper (u "utf-8") false false) list_with_complex
    = Raise (unsupported (rt := py3) (u "complex") (u "(1+2j)"))
  ∧ _dump (rt := py3) (py3_dumper (u "utf-8") false false) 4
      (PyObject (u "complex") (u "(1+2j)"))
    = Raise (NotImplementedError
               (u "encountered object of type '<class 'complex'>' for which no known encoding is available: (1+2j)")).
Proof.
  assert (Hocc : occurs_in (PyObject (u "complex") (u "(1+2j)")) list_with_complex).
  { eapply occurs_below; [| apply occurs_here].
    unfold list_with_complex. cbn [children]. apply elem_of_cons. right.
    apply elem_of_cons. left. reflexivity. }
  destruct (unsupported_type_error (rt := py3) (py3_dumper (u "utf-8") false false) 3
              (u "complex") (u "(1+2j)") list_with_complex) as (Hhere & Hno & _).
  split; [exact Hocc |]. split; [exact (Hno Hocc) |].
  split; [reflexivity | exact Hhere].
Defined.

(** C4 does not hold as stated: on Python 3, [dump] asked for [ascii]
    output returns the text, which the codec would have encoded. *)
Lemma output_encoding_counterexample :
  dump (rt := py3) (PyInt 1) (u "utf-8") (Some (u "ascii")) false false false false
  = Ok (Text (u "1"))
  ∧ codec_encode (Runtime := py3) (u "ascii") (u "1") = inr (u "1").
Proof. split; vm_compute; reflexivity. Qed.

(** C6 does not hold as stated: the integer 1 and the text [1] have the
    same text, so with [sort_keys] set the two pairs stay in the order of
    the input, and the same pairs in two orders are encoded
    differently. *)
Lemma sort_keys_counterexample :
  one_and_text_one ≡ₚ text_one_and_one
  ∧ dump (rt := py3) (PyDict one_and_text_one) (u "utf-8") None false true false false
    = Ok (Text (u "{1 " ++ [DQUOTE] ++ u "x" ++ [DQUOTE] ++ u " "
                ++ [DQUOTE] ++ u "1" ++ [DQUOTE] ++ u " "
                ++ [DQUOTE] ++ u "y" ++ [DQUOTE] ++ u "}"))
  ∧ dump (rt := py3) (PyDict text_one_and_one) (u "utf-8") None false true false false
    = Ok (Text (u "{" ++ [DQUOTE] ++ u "1" ++ [DQUOTE] ++ u " "
                ++ [DQUOTE] ++ u "y" ++ [DQUOTE] ++ u " 1 "
                ++ [DQUOTE] ++ u "x" ++ [DQUOTE] ++ u "}"))
  ∧ dump (rt := py3) (PyDict one_and_text_one) (u "utf-8") None false true false false
    ≠ dump (rt := py3) (PyDict text_one_and_one) (u "utf-8") None false true false false.
Proof.
  split; [apply Permutation_swap |].
  split; [vm_compute; reflexivity |]. split; [vm_compute; reflexivity |].
  vm_compute. discriminate.
Qed.

(** The statement for C6 on the map of [b] and [a] in its two orders:
    the pair of [a] is emitted first, from either. *)
Lemma sort_keys_deterministic_witness :
  sort_keys (py3_dumper (u "utf-8") true true) = true
  ∧ sorted_by (fun p => py_str (rt := py3) p.1) b_then_a = Ok a_then_b
  ∧ _dump (rt := py3) (py3_dumper (u "utf-8") true true) 2 (PyDict b_then_a)
    = Ok (u "{:a 2 :b 1}")
  ∧ b_then_a ≡ₚ a_then_b
  ∧ for_each (fun p => py_str (rt := py3) p.1) b_then_a = Ok [u "b"; u "a"]
  ∧ NoDup [u "b"; u "a"]
  ∧ _dump (rt := py3) (py3_dumper (u "utf-8") true true) 2 (PyDict b_then_a)
    = _dump (rt := py3) (py3_dumper (u "utf-8") true true) 2 (PyDict a_then_b).
Proof.
  assert (Hp : b_then_a ≡ₚ a_then_b) by apply Permutation_swap.
  assert (Hks : for_each (fun p => py_str (rt := py3) p.1) b_then_a = Ok [u "b"; u "a"])
    by reflexivity.
  assert (Hnd : NoDup [u "b"; u "a"]).
  { apply NoDup_cons. split; [| apply NoDup_singleton].
    intros Hin. apply list_elem_of_singleton in Hin. discriminate Hin. }
  destruct (sort_keys_deterministic (rt := py3) (py3_dumper (u "utf-8") true true) 1
              b_then_a eq_refl) as (Hout & _ & Hsame).
  split; [reflexivity |]. split; [reflexivity |].
  split; [rewrite Hout; reflexivity |].
  split; [exact Hp |]. split; [exact Hks |]. split; [exact Hnd |].
  exact (Hsame a_then_b [u "b"; u "a"] Hp Hks Hnd).
Defined.

(** C7 does not hold as stated: a datetime without a time zone carries a
    date and a time of day, and [pyrfc3339.generate] refuses it, so it is
    not encoded. *)
Lemma naive_datetime_counterexample :
  isinstance (PyDatetime naive_noon) [c_datetime] = true
  ∧ dump (rt := py3) (PyDatetime naive_noon) (u "utf-8") None false false false false
    = Raise (LibraryError ValueError).
Proof. split; vm_compute; reflexivity. Qed.

(** The statement for C7 on a datetime in UTC, on the same one without
    its time zone, and on a date. *)
Lemma datetime_before_date_witness :
  pyrfc3339_generate (Runtime := py3) utc_noon true
  = inr (u "2020-01-01T12:00:00.000000Z")
  ∧ _dump (rt := py3) (py3_dumper (u "utf-8") false false) 1 (PyDatetime utc_noon)
    = Ok (u "#inst " ++ [DQUOTE] ++ u "2020-01-01T12:00:00.000000Z" ++ [DQUOTE])
  ∧ pyrfc3339_generate (Runtime := py3) naive_noon true = inl ValueError
  ∧ _dump (rt := py3) (py3_dumper (u "utf-8") false false) 1 (PyDatetime naive_noon)
    = Raise (LibraryError ValueError)
  ∧ _dump (rt := py3) (py3_dumper (u "utf-8") false false) 1 (PyDate (dt_date utc_noon))
    = Ok (u "#inst " ++ [DQUOTE] ++ u "2020-01-01" ++ [DQUOTE]).
Proof.
  destruct (datetime_before_date (rt := py3) (py3_dumper (u "utf-8") false false) 0
              utc_noon (dt_date utc_noon)) as (_ & Hok & _ & Hdate).
  destruct (datetime_before_date (rt := py3) (py3_dumper (u "utf-8") false false) 0
              naive_noon (dt_date utc_noon)) as (_ & _ & Hraise & _).
  split; [reflexivity |]. split; [exact (Hok _ eq_refl) |].
  split; [reflexivity |]. split; [exact (Hraise _ eq_refl) |].
  exact Hdate.
Defined.



(** The statement for C10 on the byte string [abc]. *)
Lemma bytes_as_decoded_text_witness :
  codec_decode (Runtime := py3) (u "ascii") (u "abc") = inr (u "abc")
  ∧ _dump (rt := py3) (py3_dumper (u "ascii") false false) 1 (PyBytes (u "abc"))
    = _dump (rt := py3) (py3_dumper (u "ascii") false false) 1 (PyStr (u "abc")).
Proof.
  split; [reflexivity |].
  apply (bytes_as_decoded_text (rt := py3) (py3_dumper (u "ascii") false false) 0
           (u "abc") (u "abc")).
  reflexivity.
Defined.

(** * Part III: further properties *)

(** ** The escaping function *)

(** The characters of the class of [ESCAPE], one by one. *)
Lemma ESCAPE_cases (c : char) :
  ESCAPE c = true → In c (0x5c :: 0x22 :: range 0x20).
Proof.
  unfold ESCAPE, BACKSLASH, DQUOTE. intros Hc.
  repeat rewrite orb_true_iff in Hc.
  rewrite N.leb_le in Hc. repeat rewrite N.eqb_eq in Hc.
  assert (Hcases : c = 0x5c ∨ c = 0x22 ∨ c <= 0x1f) by lia.
  destruct Hcases as [-> | [-> | Hle]]; [now left | now right; left |].
  right; right. unfold range. apply in_map_iff.
  exists (N.to_nat c). split; [lia |]. apply in_seq. lia.
Qed.

(** A property of the escape of one character that a computation checks
    on the class holds on the class. *)
Lemma spec_escape_char_class (P : text → bool) (c : char) :
  forallb (fun c => P (spec_escape_char c)) (0x5c :: 0x22 :: range 0x20) = true →
  ESCAPE c = true → P (spec_escape_char c) = true.
Proof.
  intros Hall Hc. rewrite forallb_forall in Hall.
  apply Hall, ESCAPE_cases, Hc.
Qed.

Lemma ESCAPE_false_ge (c : char) : ESCAPE c = false → 0x20 <= c.
Proof.
  unfold ESCAPE. intros Hc.
  repeat (apply orb_false_iff in Hc; destruct Hc as [Hc ?]).
  apply N.leb_gt in Hc. lia.
Qed.

Lemma ESCAPE_false_not_backslash (c : char) : ESCAPE c = false → (c =? BACKSLASH) = false.
Proof.
  unfold ESCAPE. intros Hc.
  repeat (apply orb_false_iff in Hc; destruct Hc as [Hc ?]). assumption.
Qed.

(** X1: the literal [unicode_escape] returns holds no control character:
    each of its characters is 0x20 or above. *)
Theorem unicode_escape_no_control (s : text) :
  ∃ t, unicode_escape s = Ok t ∧ Forall (fun c => 0x20 <= c) t.
Proof.
  exists (spec_string_literal s). split; [apply unicode_escape_Ok |].
  unfold spec_string_literal.
  apply Forall_app. split; [repeat constructor; lia |].
  apply Forall_app. split; [| repeat constructor; lia].
  induction s as [| c s IH]; [constructor |].
  cbn [flat_map]. apply Forall_app. split; [| exact IH].
  destruct (ESCAPE c) eqn:Hc.
  - apply (spec_escape_char_class (forallb (fun x => 0x20 <=? x)) c) in Hc;
      [| vm_compute; reflexivity].
    rewrite forallb_forall in Hc. apply Forall_forall. intros x Hx.
    apply N.leb_le, Hc, list_elem_of_In, Hx.
  - rewrite (spec_escape_char_outside_class c Hc).
    constructor; [now apply ESCAPE_false_ge | constructor].
Qed.

(** X2: the literal is at least two characters longer than the text and
    at most six times as long plus two. *)
Theorem unicode_escape_length (s : text) :
  ∃ t, unicode_escape s = Ok t
       ∧ (length s + 2 <= length t)%nat ∧ (length t <= 6 * length s + 2)%nat.
Proof.
  exists (spec_string_literal s). split; [apply unicode_escape_Ok |].
  unfold spec_string_literal. rewrite !length_app. cbn [length].
  assert (Hbody : (length s <= length (flat_map spec_escape_char s))%nat
                  ∧ (length (flat_map spec_escape_char s) <= 6 * length s)%nat).
  { induction s as [| c s [IH1 IH2]]; [cbn; lia |].
    cbn [flat_map length]. rewrite length_app.
    assert (Hc : (1 <= length (spec_escape_char c) <= 6)%nat).
    { destruct (ESCAPE c) eqn:Hc.
      - apply (spec_escape_char_class
                 (fun t => (1 <=? length t)%nat && (length t <=? 6)%nat) c) in Hc;
          [| vm_compute; reflexivity].
        apply andb_true_iff in Hc as [H1 H2].
        apply Nat.leb_le in H1, H2. lia.
      - rewrite (spec_escape_char_outside_class c Hc). cbn. lia. }
    lia. }
  lia.
Qed.

Lemma unescape_escape_char (c : char) (t : text) :
  unescape (spec_escape_char c ++ t) = c :: unescape t.
Proof.
  destruct (ESCAPE c) eqn:Hc.
  - apply ESCAPE_cases in Hc. cbv [range seq map N.of_nat Pos.of_succ_nat Pos.succ In] in Hc.
    repeat (destruct Hc as [<- | Hc]; [reflexivity |]). destruct Hc.
  - rewrite (spec_escape_char_outside_class c Hc).
    cbn [app unescape]. now rewrite (ESCAPE_false_not_backslash c Hc).
Qed.

Lemma unescape_escape (s : text) :
  unescape (flat_map spec_escape_char s) = s.
Proof.
  induction s as [| c s IH]; [reflexivity |].
  cbn [flat_map]. now rewrite unescape_escape_char, IH.
Qed.

(** X3: [unicode_escape] loses nothing: two texts with the same literal
    are the same text. *)
Theorem unicode_escape_injective (s1 s2 : text) :
  unicode_escape s1 = unicode_escape s2 → s1 = s2.
Proof.
  rewrite !unicode_escape_Ok. unfold spec_string_literal.
  intros [= Heq]. apply app_inv_tail in Heq.
  rewrite <- (unescape_escape s1), <- (unescape_escape s2). now rewrite Heq.
Qed.

(** X4: a text none of whose characters is in the class of [ESCAPE] is
    returned as it is between two double quotes. *)
Theorem unicode_escape_plain (s : text) :
  (∀ c, c ∈ s → ESCAPE c = false) →
  unicode_escape s = Ok ([DQUOTE] ++ s ++ [DQUOTE]).
Proof.
  intros Hs. rewrite unicode_escape_Ok. unfold spec_string_literal.
  do 3 f_equal.
  induction s as [| c s IH]; [reflexivity |].
  cbn [flat_map]. rewrite (spec_escape_char_outside_class c) by (apply Hs; left).
  cbn [app]. f_equal. apply IH. intros x Hx. apply Hs. now right.
Qed.

(** X5: the literal of a concatenation is the concatenation of what the
    two literals hold between their quotes. *)
Theorem unicode_escape_app (s1 s2 t1 t2 : text) :
  unicode_escape s1 = Ok ([DQUOTE] ++ t1 ++ [DQUOTE]) →
  unicode_escape s2 = Ok ([DQUOTE] ++ t2 ++ [DQUOTE]) →
  unicode_escape (s1 ++ s2) = Ok ([DQUOTE] ++ (t1 ++ t2) ++ [DQUOTE]).
Proof.
  rewrite !unicode_escape_Ok. unfold spec_string_literal.
  intros [= H1] [= H2]. apply app_inv_tail in H1, H2.
  now rewrite flat_map_app, H1, H2.
Qed.

(** X6: [ESCAPE_DCT] has an entry for the one-character texts of the
    class of [ESCAPE] and for no other key: the lookup of line 55 finds
    every match and no entry is out of its reach. *)
Theorem ESCAPE_DCT_domain (k : text) :
  is_Some (ESCAPE_DCT !! k) ↔ ∃ c, k = [c] ∧ ESCAPE c = true.
Proof.
  split.
  - intros [v Hv]. apply elem_of_map_to_list in Hv.
    assert (Hall : forallb (fun kv : text * text =>
                              match kv.1 with [c] => ESCAPE c | _ => false end)
                           (map_to_list ESCAPE_DCT) = true)
      by (vm_compute; reflexivity).
    rewrite forallb_forall in Hall.
    apply list_elem_of_In, Hall in Hv. cbn [fst] in Hv.
    destruct k as [| c [| ? ?]]; try discriminate. now exists c.
  - intros (c & -> & Hc). rewrite (ESCAPE_DCT_covers_class c Hc). now eexists.
Qed.

(** ** Sequences *)

Lemma for_each_app {A B} (f : A → result B) (l1 l2 : list A) :
  for_each f (l1 ++ l2)
  = (let! a := for_each f l1 in let! b := for_each f l2 in Ok (a ++ b)).
Proof.
  induction l1 as [| x l1 IH]; cbn [app for_each].
  - cbn [bind Ok]. now destruct (for_each f l2).
  - destruct (f x) as [e | y]; [reflexivity |]. cbn [bind]. rewrite IH.
    destruct (for_each f l1) as [e | a]; [reflexivity |]. cbn [bind Ok].
    now destruct (for_each f l2).
Qed.

Lemma join_app (sep : text) (l1 l2 : list text) :
  l1 ≠ [] → l2 ≠ [] →
  join sep (l1 ++ l2) = join sep l1 ++ sep ++ join sep l2.
Proof.
  intros H1 H2. induction l1 as [| p l1 IH]; [contradiction |].
  destruct l1 as [| q l1].
  - destruct l2; [contradiction | reflexivity].
  - change (join sep ((p :: q :: l1) ++ l2)) with (p ++ sep ++ join sep ((q :: l1) ++ l2)).
    rewrite IH by discriminate.
    change (join sep (p :: q :: l1)) with (p ++ sep ++ join sep (q :: l1)).
    now rewrite <- !app_assoc.
Qed.

Section Sequences.
Context {rt : Runtime}.

(** X7: [_dump_seq] of two sequences put end to end, neither of them
    empty, is what it gives for each with one space in between, and
    raises what the first of them to fail raises. *)
Theorem _dump_seq_app (self : Dumper) (depth : nat) (l1 l2 : list pyobj) :
  l1 ≠ [] → l2 ≠ [] →
  _dump_seq self depth (l1 ++ l2)
  = (let! s1 := _dump_seq self depth l1 in
     let! s2 := _dump_seq self depth l2 in
     Ok (s1 ++ u " " ++ s2)).
Proof.
  intros H1 H2. unfold _dump_seq. rewrite for_each_app.
  destruct (for_each (_dump self depth) l1) as [e | a] eqn:Ha; [reflexivity |].
  cbn [bind Ok].
  destruct (for_each (_dump self depth) l2) as [e | b] eqn:Hb; [reflexivity |].
  cbn [bind Ok]. f_equal. apply join_app.
  - apply for_each_length in Ha. intros ->. now destruct l1.
  - apply for_each_length in Hb. intros ->. now destruct l2.
Qed.

(** X8: the empty tuple, list and dictionary are rendered as their two
    brackets whatever the options are; so is the empty set, after the
    call of [sorted] when [sort_sets] is set. *)
Theorem empty_containers (self : Dumper) (depth : nat) :
  _dump self (S depth) (PyTuple []) = Ok (u "()")
  ∧ _dump self (S depth) (PyList []) = Ok (u "[]")
  ∧ _dump self (S depth) (PyDict []) = Ok (u "{}")
  ∧ _dump self (S depth) (PySet [])
    = (if sort_sets self
       then let! _ := lib (rt_sorted []) in Ok (u "#{}")
       else Ok (u "#{}")).
Proof.
  rewrite !_dump_cases. cbn [dump_cases].
  split; [reflexivity |]. split; [reflexivity |]. split.
  - unfold dump_map_with, rendered_pairs, sorted_by.
    now destruct (sort_keys self), (keyword_keys self).
  - unfold dump_set_with. destruct (sort_sets self); [| reflexivity].
    destruct (rt_sorted []) as [e | l'] eqn:Hl'; [reflexivity |].
    apply rt_sorted_perm, Permutation_nil_r in Hl'. now subst l'.
Qed.

(** X9: an [ImmutableList] is encoded as the list of its elements, an
    [ImmutableDict] as the dictionary of its pairs and a frozenset as the
    set of its elements. *)
Theorem immutable_as_mutable (self : Dumper) (elts : list pyobj)
    (pairs : list (pyobj * pyobj)) :
  Dumper_dump self (PyImmutableList elts) = Dumper_dump self (PyList elts)
  ∧ Dumper_dump self (PyImmutableDict pairs) = Dumper_dump self (PyDict pairs)
  ∧ Dumper_dump self (PyFrozenset elts) = Dumper_dump self (PySet elts).
Proof.
  unfold Dumper_dump. cbn [nesting]. rewrite !_dump_cases. repeat split.
Qed.

(** X10: in a list or a tuple the elements are encoded from left to
    right, and the first one that raises ends the encoding with its
    exception. *)
Theorem first_failure_raises (self : Dumper) (depth : nat)
    (l1 l2 : list pyobj) (x : pyobj) (parts : list text) (e : exn) :
  for_each (_dump self depth) l1 = Ok parts →
  _dump self depth x = Raise e →
  _dump self (S depth) (PyList (l1 ++ x :: l2)) = Raise e
  ∧ _dump self (S depth) (PyTuple (l1 ++ x :: l2)) = Raise e.
Proof.
  intros H1 Hx. rewrite !_dump_cases. cbn [dump_cases]. unfold dump_seq_with.
  rewrite for_each_app, H1. cbn [for_each bind Ok]. rewrite Hx. split; reflexivity.
Qed.

End Sequences.

(** ** The sort of the pairs *)

Lemma stable_sort_of_sorted {A} (l : list (text * A)) :
  StronglySorted key_le l → stable_sort l = l.
Proof.
  induction 1 as [| [k x] l Hs IH Hall]; [reflexivity |].
  unfold stable_sort in *. cbn [foldr fst snd]. rewrite IH.
  destruct l as [| [k' y] l]; [reflexivity |].
  inversion Hall as [| ? ? Hle _]; subst. unfold key_le in Hle. cbn [fst] in Hle.
  cbn [insert_by]. now rewrite Hle.
Qed.

Lemma decorate_sorted {A} (key : A → result text) (l : list A) :
  StronglySorted (text_le_by key) l → StronglySorted key_le (decorate key l).
Proof.
  unfold decorate. induction 1 as [| x l Hs IH Hall]; [constructor |].
  cbn [map]. constructor; [exact IH |].
  apply Forall_forall. intros p Hp. apply list_elem_of_In, in_map_iff in Hp as (y & <- & Hy).
  rewrite Forall_forall in Hall. apply Hall, list_elem_of_In, Hy.
Qed.

Lemma sorted_by_of_sorted {A} (key : A → result text) (l : list A) (ks : list text) :
  for_each key l = Ok ks → StronglySorted (text_le_by key) l →
  sorted_by key l = Ok l.
Proof.
  intros Hks Hs. rewrite (sorted_by_decorate key l ks Hks).
  now rewrite (stable_sort_of_sorted _ (decorate_sorted key l Hs)), snd_decorate.
Qed.

(** X11: the sort of line 107 is stable: the pairs whose keys have a
    given text come out in the order they went in. *)
Theorem sort_keys_stable (rt : Runtime) (pairs sorted : list (pyobj * pyobj)) (k : text) :
  sorted_by (fun p => py_str p.1) pairs = Ok sorted →
  List.filter (fun p => bool_decide (key_text (fun p => py_str p.1) p = k)) sorted
  = List.filter (fun p => bool_decide (key_text (fun p => py_str p.1) p = k)) pairs.
Proof.
  intros (ks & _ & ->)%sorted_by_Ok.
  set (key := fun p : pyobj * pyobj => py_str p.1).
  rewrite (filter_snd_decorated key k).
  - rewrite stable_sort_filter.
    rewrite <- (filter_snd_decorated key k), snd_decorate; [reflexivity |].
    unfold decorate. apply Forall_forall. intros p Hp.
    apply list_elem_of_In, in_map_iff in Hp as (y & <- & _). reflexivity.
  - rewrite stable_sort_perm. unfold decorate. apply Forall_forall. intros p Hp.
    apply list_elem_of_In, in_map_iff in Hp as (y & <- & _). reflexivity.
Qed.

Section Pairs.
Context {rt : Runtime}.

(** X12: with [sort_keys] set, a map whose pairs already come in the
    order of the texts of their keys is encoded with its pairs in the
    order they come in. *)
Theorem sort_keys_of_sorted (self : Dumper) (depth : nat)
    (pairs : list (pyobj * pyobj)) (ks : list text) :
  sort_keys self = true →
  for_each (fun p => py_str p.1) pairs = Ok ks →
  StronglySorted (text_le_by (fun p => py_str p.1)) pairs →
  _dump self (S depth) (PyDict pairs)
  = (let! s := _dump_seq self depth
                 (chain_from_iterable
                    (if keyword_keys self then map coerce_key pairs else pairs)) in
     Ok (u "{" ++ s ++ u "}")).
Proof.
  intros Hsk Hks Hs. rewrite _dump_map. unfold rendered_pairs.
  now rewrite Hsk, (sorted_by_of_sorted _ pairs ks Hks Hs).
Qed.

Lemma snd_coerce_key (ps : list (pyobj * pyobj)) :
  map snd (map coerce_key ps) = map snd ps.
Proof. induction ps as [| [k v] ps IH]; [reflexivity |]. cbn [map snd coerce_key]. now rewrite IH. Qed.

(** X13: the options change no value of a map and drop none: the values
    of the pairs that are rendered are those of the map, in another order
    when [sort_keys] is set and in the same order when it is not. *)
Theorem rendered_values (self : Dumper) (pairs ps : list (pyobj * pyobj)) :
  rendered_pairs self pairs = Ok ps →
  map snd ps ≡ₚ map snd pairs
  ∧ length ps = length pairs
  ∧ (if sort_keys self then True else map snd ps = map snd pairs).
Proof.
  unfold rendered_pairs. intros Hr.
  destruct (if sort_keys self then _ else _) as [e | l'] eqn:Hl'; [discriminate |].
  cbn [bind Ok] in Hr. injection Hr as <-.
  assert (Hsnd : map snd (if keyword_keys self then map coerce_key l' else l') = map snd l')
    by (destruct (keyword_keys self); [apply snd_coerce_key | reflexivity]).
  assert (Hlen : length (if keyword_keys self then map coerce_key l' else l') = length l')
    by (destruct (keyword_keys self); [apply length_map | reflexivity]).
  rewrite Hsnd, Hlen. destruct (sort_keys self).
  - apply sorted_by_perm in Hl'. split; [now apply Permutation_map |].
    split; [now apply Permutation_length | exact I].
  - injection Hl' as <-. split; [reflexivity | split; reflexivity].
Qed.

End Pairs.

(** ** Options and the values they bear on *)

Section OptionsReach.
Context {rt : Runtime}.

Lemma holds_map_children (obj x : pyobj) :
  holds_map obj = false → x ∈ children obj → holds_map x = false.
Proof.
  intros Hobj Hx.
  destruct obj; cbn [children holds_map] in *; try discriminate;
    try (now apply elem_of_nil in Hx);
    (destruct (holds_map x) eqn:Hhx; [| reflexivity];
     assert (Hex : existsb holds_map elts = true)
       by (apply existsb_exists; exists x; split; [now apply list_elem_of_In | exact Hhx]);
     congruence).
Qed.

Lemma holds_bytes_children (obj x : pyobj) :
  holds_bytes obj = false → x ∈ children obj → holds_bytes x = false.
Proof.
  intros Hobj Hx.
  destruct obj; cbn [children holds_bytes] in *; try discriminate;
    try (now apply elem_of_nil in Hx);
    try (destruct (holds_bytes x) eqn:Hhx; [| reflexivity];
         assert (Hex : existsb holds_bytes elts = true)
           by (apply existsb_exists; exists x; split; [now apply list_elem_of_In | exact Hhx]);
         congruence).
  all: destruct (holds_bytes x) eqn:Hhx; [| reflexivity].
  all: unfold chain_from_iterable in Hx.
  all: apply list_elem_of_In, in_flat_map in Hx as ([k v] & Hkv & Hin).
  all: assert (Hex : existsb (fun kv : pyobj * pyobj =>
                       let '(k, v) := kv in holds_bytes k || holds_bytes v) pairs = true).
  all: try congruence.
  all: apply existsb_exists; exists (k, v); split; [exact Hkv |].
  all: cbn [fst snd In] in Hin; destruct Hin as [<- | [<- | []]]; rewrite Hhx;
         [reflexivity | apply orb_true_r].
Qed.

Lemma holds_set_children (obj x : pyobj) :
  holds_set obj = false → x ∈ children obj → holds_set x = false.
Proof.
  intros Hobj Hx.
  destruct obj; cbn [children holds_set] in *; try discriminate;
    try (now apply elem_of_nil in Hx);
    try (destruct (holds_set x) eqn:Hhx; [| reflexivity];
         assert (Hex : existsb holds_set elts = true)
           by (apply existsb_exists; exists x; split; [now apply list_elem_of_In | exact Hhx]);
         congruence).
  all: destruct (holds_set x) eqn:Hhx; [| reflexivity].
  all: unfold chain_from_iterable in Hx.
  all: apply list_elem_of_In, in_flat_map in Hx as ([k v] & Hkv & Hin).
  all: assert (Hex : existsb (fun kv : pyobj * pyobj =>
                       let '(k, v) := kv in holds_set k || holds_set v) pairs = true).
  all: try congruence.
  all: apply existsb_exists; exists (k, v); split; [exact Hkv |].
  all: cbn [fst snd In] in Hin; destruct Hin as [<- | [<- | []]]; rewrite Hhx;
         [reflexivity | apply orb_true_r].
Qed.

(** Two dumpers encode a value alike when they differ in options that
    bear on containers the value does not hold. *)
Lemma _dump_options (self self' : Dumper) (n : nat) (obj : pyobj) :
  holds_bytes obj = false ∨ string_encoding self = string_encoding self' →
  holds_map obj = false
  ∨ (keyword_keys self = keyword_keys self' ∧ sort_keys self = sort_keys self') →
  holds_set obj = false ∨ sort_sets self = sort_sets self' →
  _dump self n obj = _dump self' n obj.
Proof.
  revert obj. induction n as [| n IH]; intros obj Hb Hm Hs; [reflexivity |].
  rewrite !_dump_cases.
  assert (Hrec : ∀ x, x ∈ children obj ∨ (∃ k, x = PyKeyword k) →
                      _dump self n x = _dump self' n x).
  { intros x [Hx | [k ->]].
    - apply IH.
      + destruct Hb as [Hb | Hb]; [left; eapply holds_bytes_children; eassumption | now right].
      + destruct Hm as [Hm | Hm]; [left; eapply holds_map_children; eassumption | now right].
      + destruct Hs as [Hs | Hs]; [left; eapply holds_set_children; eassumption | now right].
    - apply IH; now left. }
  assert (Hseq : ∀ objs, (∀ x, x ∈ objs → x ∈ children obj ∨ ∃ k, x = PyKeyword k) →
                         dump_seq_with (_dump self n) objs = dump_seq_with (_dump self' n) objs).
  { intros objs Hobjs. unfold dump_seq_with.
    rewrite (for_each_ext (_dump self n) (_dump self' n) objs); [reflexivity |].
    apply Forall_forall. intros x Hx. apply Hrec, Hobjs, Hx. }
  assert (Hset : ∀ l, children obj = l → holds_set obj = true →
                      dump_set_with self (_dump self n) l = dump_set_with self' (_dump self' n) l).
  { intros l Hl Hobj. destruct Hs as [Hs | Hs]; [congruence |].
    unfold dump_set_with. rewrite <- Hs. destruct (sort_sets self).
    - destruct (rt_sorted l) as [e | l'] eqn:Hl'; [reflexivity |]. cbn [lib bind Ok].
      rewrite (Hseq l'); [reflexivity |].
      intros x Hx. left. rewrite Hl. now rewrite <- (rt_sorted_perm l l' Hl').
    - cbn [bind Ok]. rewrite (Hseq l); [reflexivity |]. intros x Hx. left. now rewrite Hl. }
  assert (Hmap : ∀ l, children obj = chain_from_iterable l → holds_map obj = true →
                      dump_map_with self (_dump self n) l = dump_map_with self' (_dump self' n) l).
  { intros l Hl Hobj. destruct Hm as [Hm | [Hkk Hsk]]; [congruence |].
    unfold dump_map_with.
    replace (rendered_pairs self' l) with (rendered_pairs self l)
      by (unfold rendered_pairs; now rewrite Hkk, Hsk).
    destruct (rendered_pairs self l) as [e | ps] eqn:Hps; [reflexivity |]. cbn [bind Ok].
    rewrite (Hseq (chain_from_iterable ps)); [reflexivity |].
    intros x Hx. rewrite Hl. exact (rendered_pairs_elem self l ps x Hps Hx). }
  destruct obj; cbn [dump_cases]; try reflexivity;
    try (rewrite (Hseq elts); [reflexivity | intros x Hx; now left]);
    try (now apply Hset); try (now apply Hmap).
  destruct Hb as [Hb | Hb]; [discriminate | now rewrite Hb].
Qed.

(** X14: [keyword_keys] and [sort_keys] bear on maps only: a value that
    is no dictionary and holds none in its sequences and sets is encoded
    the same whatever the two options are. *)
Theorem map_options_without_maps (obj : pyobj) (enc_in : text) (enc_out : option text)
    (kk sk kk' sk' ss p : bool) :
  holds_map obj = false →
  Dumper_dump {| string_encoding := enc_in; output_encoding := enc_out;
                 keyword_keys := kk; sort_keys := sk; sort_sets := ss; pretty := p |} obj
  = Dumper_dump {| string_encoding := enc_in; output_encoding := enc_out;
                   keyword_keys := kk'; sort_keys := sk'; sort_sets := ss; pretty := p |} obj.
Proof.
  intros Hobj. unfold Dumper_dump. cbn [output_encoding].
  erewrite _dump_options; [reflexivity | now right | now left | now right].
Qed.

(** X15: [sort_sets] bears on sets only: a value that holds no set at any
    depth is encoded the same whatever the option is. *)
Theorem sort_sets_without_sets (obj : pyobj) (enc_in : text) (enc_out : option text)
    (kk sk ss ss' p : bool) :
  holds_set obj = false →
  Dumper_dump {| string_encoding := enc_in; output_encoding := enc_out;
                 keyword_keys := kk; sort_keys := sk; sort_sets := ss; pretty := p |} obj
  = Dumper_dump {| string_encoding := enc_in; output_encoding := enc_out;
                   keyword_keys := kk; sort_keys := sk; sort_sets := ss'; pretty := p |} obj.
Proof.
  intros Hobj. unfold Dumper_dump. cbn [output_encoding].
  erewrite _dump_options; [reflexivity | now right | now right | now left].
Qed.

(** X17: [string_encoding] bears on byte strings only: a value that
    holds no byte string at any depth is encoded the same whatever the
    encoding is. *)
Theorem string_encoding_without_bytes (obj : pyobj) (enc_in enc_in' : text)
    (enc_out : option text) (kk sk ss p : bool) :
  holds_bytes obj = false →
  Dumper_dump {| string_encoding := enc_in; output_encoding := enc_out;
                 keyword_keys := kk; sort_keys := sk; sort_sets := ss; pretty := p |} obj
  = Dumper_dump {| string_encoding := enc_in'; output_encoding := enc_out;
                   keyword_keys := kk; sort_keys := sk; sort_sets := ss; pretty := p |} obj.
Proof.
  intros Hobj. unfold Dumper_dump. cbn [output_encoding].
  erewrite _dump_options; [reflexivity | now left | now right | now right].
Qed.

(** X18: the bytes [Dumper.dump] returns with an output encoding are the
    text it returns without one, encoded; when the text is not returned,
    neither are the bytes, and the exception is the same. *)
Theorem bytes_output_of_text_output (obj : pyobj) (enc_in : text) (c : char)
    (enc : text) (kk sk ss p : bool) :
  Dumper_dump {| string_encoding := enc_in; output_encoding := Some (c :: enc);
                 keyword_keys := kk; sort_keys := sk; sort_sets := ss; pretty := p |} obj
  = (let! out := Dumper_dump {| string_encoding := enc_in; output_encoding := None;
                                keyword_keys := kk; sort_keys := sk; sort_sets := ss;
                                pretty := p |} obj in
     match out with
     | Text s => let! b := lib (codec_encode (c :: enc) s) in Ok (Bytes b)
     | Bytes b => Ok (Bytes b)
     end).
Proof.
  unfold Dumper_dump. cbn [output_encoding].
  set (d0 := {| output_encoding := None; pretty := p |}).
  rewrite (_dump_same_fields _ d0) by reflexivity.
  now destruct (_dump d0 _ obj).
Qed.

End OptionsReach.

(** ** Values that are always encoded *)

Section Total.
Context {rt : Runtime}.





End Total.

(** ** The further properties on concrete values *)

(** X3 on one text. *)
Lemma unicode_escape_injective_witness :
  unicode_escape (u "a\b") = unicode_escape ([0x61; 0x5c] ++ u "b")
  ∧ u "a\b" = [0x61; 0x5c] ++ u "b".
Proof.
  assert (H : unicode_escape (u "a\b") = unicode_escape ([0x61; 0x5c] ++ u "b"))
    by reflexivity.
  split; [exact H | exact (unicode_escape_injective _ _ H)].
Defined.

(** X4 on the text [abc]. *)
Lemma unicode_escape_plain_witness :
  (∀ c, c ∈ u "abc" → ESCAPE c = false)
  ∧ unicode_escape (u "abc") = Ok ([DQUOTE] ++ u "abc" ++ [DQUOTE]).
Proof.
  assert (H : ∀ c, c ∈ u "abc" → ESCAPE c = false).
  { intros c Hc. apply list_elem_of_In in Hc. cbv [u map list_ascii_of_string In] in Hc.
    destruct Hc as [<- | [<- | [<- | []]]]; reflexivity. }
  split; [exact H | exact (unicode_escape_plain (u "abc") H)].
Defined.

(** X5 on a newline and the text [b]. *)
Lemma unicode_escape_app_witness :
  unicode_escape [0x0a] = Ok ([DQUOTE] ++ u "\n" ++ [DQUOTE])
  ∧ unicode_escape (u "b") = Ok ([DQUOTE] ++ u "b" ++ [DQUOTE])
  ∧ unicode_escape ([0x0a] ++ u "b") = Ok ([DQUOTE] ++ (u "\n" ++ u "b") ++ [DQUOTE]).
Proof.
  assert (H1 : unicode_escape [0x0a] = Ok ([DQUOTE] ++ u "\n" ++ [DQUOTE])) by reflexivity.
  assert (H2 : unicode_escape (u "b") = Ok ([DQUOTE] ++ u "b" ++ [DQUOTE])) by reflexivity.
  split; [exact H1 |]. split; [exact H2 |].
  exact (unicode_escape_app [0x0a] (u "b") (u "\n") (u "b") H1 H2).
Defined.

(** X7 on the sequences of the integer 1 and of [None]. *)
Lemma _dump_seq_app_witness :
  [PyInt 1] ≠ [] ∧ [PyNone] ≠ []
  ∧ _dump_seq (rt := py3) (py3_dumper (u "utf-8") false false) 1 ([PyInt 1] ++ [PyNone])
    = Ok (u "1 nil").
Proof.
  assert (H1 : [PyInt 1] ≠ []) by discriminate.
  assert (H2 : [PyNone] ≠ []) by discriminate.
  split; [exact H1 |]. split; [exact H2 |].
  rewrite (_dump_seq_app (rt := py3) (py3_dumper (u "utf-8") false false) 1
             [PyInt 1] [PyNone] H1 H2).
  reflexivity.
Defined.

(** X10 on a list whose second element is a complex number. *)
Lemma first_failure_raises_witness :
  for_each (_dump (rt := py3) (py3_dumper (u "utf-8") false false) 1) [PyInt 1]
  = Ok [u "1"]
  ∧ _dump (rt := py3) (py3_dumper (u "utf-8") false false) 1
      (PyObject (u "complex") (u "(1+2j)"))
    = Raise (unsupported (rt := py3) (u "complex") (u "(1+2j)"))
  ∧ _dump (rt := py3) (py3_dumper (u "utf-8") false false) 2
      (PyList ([PyInt 1] ++ PyObject (u "complex") (u "(1+2j)") :: [PyInt 2]))
    = Raise (unsupported (rt := py3) (u "complex") (u "(1+2j)")).
Proof.
  split; [reflexivity |]. split; [reflexivity |].
  apply (first_failure_raises (rt := py3) (py3_dumper (u "utf-8") false false) 1
           [PyInt 1] [PyInt 2] (PyObject (u "complex") (u "(1+2j)")) [u "1"]);
    reflexivity.
Defined.

(** X11 on the map of [b] and [a]. *)
Lemma sort_keys_stable_witness :
  sorted_by (fun p => py_str (rt := py3) p.1) b_then_a = Ok a_then_b
  ∧ List.filter (fun p => bool_decide (key_text (fun p => py_str (rt := py3) p.1) p = u "a"))
      a_then_b
    = List.filter (fun p => bool_decide (key_text (fun p => py_str (rt := py3) p.1) p = u "a"))
        b_then_a.
Proof.
  assert (H : sorted_by (fun p => py_str (rt := py3) p.1) b_then_a = Ok a_then_b)
    by reflexivity.
  split; [exact H |].
  exact (sort_keys_stable py3 b_then_a a_then_b (u "a") H).
Defined.

(** X12 on the map of [a] and [b] in that order. *)
Lemma sort_keys_of_sorted_witness :
  sort_keys (py3_dumper (u "utf-8") false true) = true
  ∧ for_each (fun p => py_str (rt := py3) p.1) a_then_b = Ok [u "a"; u "b"]
  ∧ StronglySorted (text_le_by (fun p => py_str (rt := py3) p.1)) a_then_b
  ∧ _dump (rt := py3) (py3_dumper (u "utf-8") false true) 2 (PyDict a_then_b)
    = (let! s := _dump_seq (rt := py3) (py3_dumper (u "utf-8") false true) 1
                   (chain_from_iterable a_then_b) in
       Ok (u "{" ++ s ++ u "}")).
Proof.
  assert (Hs : StronglySorted (text_le_by (fun p => py_str (rt := py3) p.1)) a_then_b).
  { unfold a_then_b. repeat constructor. }
  split; [reflexivity |]. split; [reflexivity |]. split; [exact Hs |].
  exact (sort_keys_of_sorted (rt := py3) (py3_dumper (u "utf-8") false true) 1
           a_then_b [u "a"; u "b"] eq_refl eq_refl Hs).
Defined.

(** X13 on the map of [b] and [a], sorted. *)
Lemma rendered_values_witness :
  rendered_pairs (rt := py3) (py3_dumper (u "utf-8") true true) b_then_a
  = Ok [(PyKeyword (PyStr (u "a")), PyInt 2); (PyKeyword (PyStr (u "b")), PyInt 1)]
  ∧ [PyInt 2; PyInt 1] ≡ₚ [PyInt 1; PyInt 2].
Proof.
  assert (H : rendered_pairs (rt := py3) (py3_dumper (u "utf-8") true true) b_then_a
              = Ok [(PyKeyword (PyStr (u "a")), PyInt 2);
                    (PyKeyword (PyStr (u "b")), PyInt 1)]) by reflexivity.
  split; [exact H |].
  exact (proj1 (rendered_values (rt := py3) (py3_dumper (u "utf-8") true true)
                  b_then_a _ H)).
Defined.

(** X14 on a list of one text. *)
Lemma map_options_without_maps_witness :
  holds_map (PyList [PyStr (u "a")]) = false
  ∧ Dumper_dump (rt := py3) (py3_dumper (u "utf-8") false false) (PyList [PyStr (u "a")])
    = Dumper_dump (rt := py3) (py3_dumper (u "utf-8") true true) (PyList [PyStr (u "a")]).
Proof.
  split; [reflexivity |].
  exact (map_options_without_maps (rt := py3) (PyList [PyStr (u "a")]) (u "utf-8") None
           false false true true false false eq_refl).
Defined.

(** X15 on the map of [b] and [a]. *)
Lemma sort_sets_without_sets_witness :
  holds_set (PyDict b_then_a) = false
  ∧ Dumper_dump (rt := py3)
      {| string_encoding := u "utf-8"; output_encoding := None; keyword_keys := false;
         sort_keys := false; sort_sets := false; pretty := false |} (PyDict b_then_a)
    = Dumper_dump (rt := py3)
        {| string_encoding := u "utf-8"; output_encoding := None; keyword_keys := false;
           sort_keys := false; sort_sets := true; pretty := false |} (PyDict b_then_a).
Proof.
  split; [reflexivity |].
  exact (sort_sets_without_sets (rt := py3) (PyDict b_then_a) (u "utf-8") None
           false false false true false eq_refl).
Defined.


(** X17 on a list of one text. *)
Lemma string_encoding_without_bytes_witness :
  holds_bytes (PyList [PyStr (u "a")]) = false
  ∧ Dumper_dump (rt := py3) (py3_dumper (u "utf-8") false false) (PyList [PyStr (u "a")])
    = Dumper_dump (rt := py3) (py3_dumper (u "koi8-r") false false) (PyList [PyStr (u "a")]).
Proof.
  split; [reflexivity |].
  exact (string_encoding_without_bytes (rt := py3) (PyList [PyStr (u "a")])
           (u "utf-8") (u "koi8-r") None false false false false eq_refl).
Defined.

(** ** The end of a literal *)

Lemma read_literal_escape_char (c : char) (t : text) :
  read_literal (spec_escape_char c ++ t)
  = match read_literal t with
    | Some (body, tail) => Some (spec_escape_char c ++ body, tail)
    | None => None
    end.
Proof.
  destruct (ESCAPE c) eqn:Hc.
  - apply ESCAPE_cases in Hc. cbv [range seq map N.of_nat Pos.of_succ_nat Pos.succ In] in Hc.
    repeat (destruct Hc as [<- | Hc];
            [cbn; now destruct (read_literal t) as [[body tail] |] |]).
    destruct Hc.
  - rewrite (spec_escape_char_outside_class c Hc). cbn [app read_literal].
    rewrite (ESCAPE_false_not_backslash c Hc).
    assert (Hq : (c =? DQUOTE) = false).
    { unfold ESCAPE in Hc. repeat (apply orb_false_iff in Hc; destruct Hc as [Hc ?]).
      assumption. }
    now rewrite Hq.
Qed.

(** X19: the quote that closes the literal is its first double quote
    that no backslash precedes: whatever text follows the literal, a
    reader that starts behind the opening quote stops at the closing one,
    having read what [unicode_escape] put between the two. *)
Theorem unicode_escape_closes (s rest : text) :
  ∃ body, unicode_escape s = Ok ([DQUOTE] ++ body ++ [DQUOTE])
          ∧ read_literal (body ++ [DQUOTE] ++ rest) = Some (body, rest).
Proof.
  exists (flat_map spec_escape_char s). split; [apply unicode_escape_Ok |].
  induction s as [| c s IH]; [reflexivity |].
  cbn [flat_map]. rewrite <- app_assoc, read_literal_escape_char, IH. reflexivity.
Qed.
